(** * The question router of [app/graphs/simple_agent.py]

    A shallow embedding of the LangGraph agent of
    [17_Deploying_Open_Source_Endpoints]: keyword classification of the
    latest user question, dispatch to one of three tool collaborators,
    and response generation by a chat model.

    Python text is modelled by [string] (ASCII text), the dictionaries a
    node returns by a record of optional fields, and the external
    collaborators (tools, chat model) by functions that either return a
    value or raise.  Diagnostic [print] calls are not part of the
    behaviour and are left out. *)

From Stdlib Require Import String Ascii List Bool Arith Lia.
Import ListNotations.

Local Open Scope string_scope.
Local Open Scope list_scope.
Local Open Scope nat_scope.

(** String concatenation, kept apart from list append. *)
Infix "+++" := String.append (right associativity, at level 60).

(** ** Text: [str.lower] and the [in] operator *)

Module Text.

(** [str.lower] on one ASCII character: [A]..[Z] move to [a]..[z]. *)
Definition lower_ascii (c : ascii) : ascii :=
  let n := nat_of_ascii c in
  if (65 <=? n) && (n <=? 90) then ascii_of_nat (n + 32) else c.

Fixpoint lower (s : string) : string :=
  match s with
  | EmptyString => EmptyString
  | String c s' => String (lower_ascii c) (lower s')
  end.

Definition is_upper (c : ascii) : bool :=
  let n := nat_of_ascii c in (65 <=? n) && (n <=? 90).

(** Whether a text holds a capital letter. *)
Fixpoint has_upper (s : string) : bool :=
  match s with
  | EmptyString => false
  | String c s' => is_upper c || has_upper s'
  end.

(** [starts_with k s]: [s.startswith(k)]. *)
Fixpoint starts_with (k s : string) : bool :=
  match k, s with
  | EmptyString, _ => true
  | String _ _, EmptyString => false
  | String a k', String b s' => Ascii.eqb a b && starts_with k' s'
  end.

(** [contains s k]: the Python expression [k in s] on strings. *)
Fixpoint contains (s k : string) : bool :=
  starts_with k s ||
  match s with
  | EmptyString => false
  | String _ s' => contains s' k
  end.

(** The same as a proposition: [k] occurs somewhere inside [s]. *)
Definition Substring (k s : string) : Prop :=
  exists pre post, s = pre +++ k +++ post.

(** [sep.join(parts)]. *)
Fixpoint join (sep : string) (parts : list string) : string :=
  match parts with
  | [] => ""
  | [p] => p
  | p :: rest => p +++ sep +++ join sep rest
  end.

(** Words of a text: maximal runs of letters and digits. *)
Definition is_alnum (c : ascii) : bool :=
  let n := nat_of_ascii c in
  ((48 <=? n) && (n <=? 57)) || ((65 <=? n) && (n <=? 90)) ||
  ((97 <=? n) && (n <=? 122)).

Fixpoint words_aux (cur : string) (s : string) : list string :=
  match s with
  | EmptyString => if String.eqb cur "" then [] else [cur]
  | String c s' =>
      if is_alnum c then words_aux (cur +++ String c "") s'
      else if String.eqb cur "" then words_aux "" s'
      else cur :: words_aux "" s'
  end.

Definition words (s : string) : list string := words_aux "" s.

End Text.

Import Text.

(** ** Messages and the agent state ([app/state.py]) *)

(** The message classes the graph tells apart with [isinstance]. *)
Inductive message : Type :=
| HumanMessage (content : string)
| AIMessage (content : string)
| SystemMessage (content : string).

Definition content (m : message) : string :=
  match m with
  | HumanMessage c | AIMessage c | SystemMessage c => c
  end.

Definition is_human (m : message) : bool :=
  match m with HumanMessage _ => true | _ => false end.

Definition is_system (m : message) : bool :=
  match m with SystemMessage _ => true | _ => false end.

(** A key of the state dictionary holding an [Optional[str]]: the key may
    be missing ([None]), or hold Python's [None] ([Some None]) or a
    string ([Some (Some s)]). *)
Definition field : Type := option (option string).

Record AgentState : Type := mkState {
  messages : list message;
  tool_choice : field;
  question : field
}.

(** [state.get(key, default)]. *)
Definition state_get (f : field) (default : string) : option string :=
  match f with
  | None => Some default
  | Some v => v
  end.

(** Python truthiness of an [Optional[str]]. *)
Definition truthy (v : option string) : bool :=
  match v with
  | None => false
  | Some s => negb (String.eqb s "")
  end.

(** The partial dictionary a node returns. *)
Record Update : Type := mkUpdate {
  u_messages : list message;
  u_tool_choice : field;
  u_question : field
}.

(** The [add_messages] reducer on messages that carry no identifier of
    an earlier message: the new ones are appended. *)
Definition add_messages (left right : list message) : list message :=
  left ++ right.

Definition overwrite (old new : field) : field :=
  match new with
  | Some v => Some v
  | None => old
  end.

Definition apply_update (st : AgentState) (u : Update) : AgentState :=
  {| messages := add_messages (messages st) (u_messages u);
     tool_choice := overwrite (tool_choice st) (u_tool_choice u);
     question := overwrite (question st) (u_question u) |}.

(** ** Keyword classification *)

Definition rag_keywords : list string :=
  [ "student loan"; "financial aid"; "pell grant"; "fafsa"; "tuition";
    "scholarship"; "education loan"; "federal aid"; "college funding";
    "direct loan"; "subsidized"; "unsubsidized"; "plus loan";
    "loan forgiveness"; "repayment"; "interest rate" ].

Definition web_keywords : list string :=
  [ "current"; "latest"; "recent"; "today"; "news"; "update";
    "2024"; "2025"; "now"; "this year" ].

Definition arxiv_keywords : list string :=
  [ "research"; "paper"; "study"; "academic"; "publication";
    "machine learning"; "AI"; "artificial intelligence"; "neural network";
    "algorithm"; "computer science"; "mathematics" ].

(** [any(keyword in question_lower for keyword in keywords)]. *)
Definition any_keyword (keywords : list string) (question_lower : string)
  : bool :=
  existsb (fun keyword => contains question_lower keyword) keywords.

Definition _should_use_rag (question : string) : bool :=
  let question_lower := lower question in
  any_keyword rag_keywords question_lower.

Definition _should_use_web_search (question : string) : bool :=
  let question_lower := lower question in
  any_keyword web_keywords question_lower.

Definition _should_use_arxiv (question : string) : bool :=
  let question_lower := lower question in
  any_keyword arxiv_keywords question_lower.

(** [for msg in reversed(messages): if isinstance(msg, HumanMessage): ...] *)
Definition last_human_message (msgs : list message) : option string :=
  match find is_human (rev msgs) with
  | Some msg => Some (content msg)
  | None => None
  end.

(** Lines 73-84 of [analyze_question]: the list [tools_to_use]. *)
Definition tools_to_use (question : string) : list string :=
  if _should_use_rag question then [] ++ ["rag"]
  else if _should_use_web_search question then [] ++ ["web_search"]
  else if _should_use_arxiv question then [] ++ ["arxiv"]
  else [].

Definition decision (choice question : string) : Update :=
  {| u_messages := [];
     u_tool_choice := Some (Some choice);
     u_question := Some (Some question) |}.

Definition analyze_question (state : AgentState) : Update :=
  let last_human_message := last_human_message (messages state) in
  if negb (truthy last_human_message) then decision "direct" ""
  else
    let question :=
      match last_human_message with Some q => q | None => "" end in
    match tools_to_use question with
    | [] => decision "direct" question
    | tool :: _ => decision tool question
    end.

(** ** Effects: collaborator calls and exceptions *)

(** A Python exception (a subclass of [Exception]) with its [str(e)]. *)
Record py_exception : Type := mkExc {
  exc_type : string;
  exc_str : string
}.

Inductive outcome (A : Type) : Type :=
| Returned (a : A)
| Raised (e : py_exception).

Arguments Returned {A} a.
Arguments Raised {A} e.

Inductive collaborator : Type := Retrieval | WebSearch | AcademicSearch.

(** What one run does that the outside can observe. *)
Inductive event : Type :=
| NodeStep (name : string)
| ToolCall (tool : collaborator) (query : option string)
| ModelCall (model_messages : list message).

(** A computation: the events it performed and how it ended. *)
Definition M (A : Type) : Type := list event * outcome A.

Definition ret {A} (a : A) : M A := ([], Returned a).

Definition raise {A} (e : py_exception) : M A := ([], Raised e).

Definition bind {A B} (m : M A) (k : A -> M B) : M B :=
  match m with
  | (t, Returned a) => let (t', r) := k a in (t ++ t', r)
  | (t, Raised e) => (t, Raised e)
  end.

Definition emit (ev : event) : M unit := ([ev], Returned tt).

Definition lift {A} (o : outcome A) : M A := ([], o).

(** [try: body  except Exception as e: handler(e)]. *)
Definition try_except {A} (body : M A) (handler : py_exception -> M A)
  : M A :=
  match body with
  | (t, Returned a) => (t, Returned a)
  | (t, Raised e) => let (t', r) := handler e in (t ++ t', r)
  end.

Notation "x <- m ;; k" := (bind m (fun x => k))
  (at level 61, m at next level, right associativity).

Definition trace {A} (m : M A) : list event := fst m.
Definition result {A} (m : M A) : outcome A := snd m.

(** One hit of the web search: a dictionary read with
    [result.get('title', 'No title')] and
    [result.get('content', 'No content')]. *)
Record search_hit : Type := mkHit {
  hit_title : option string;
  hit_content : option string
}.

(** The web-search tool answers with a list of hits or with a text. *)
Inductive search_output : Type :=
| SearchHits (hits : list search_hit)
| SearchText (text : string).

(** The external collaborators of one routing pass.  The query is the
    value of the local [question], which may be Python's [None]. *)
Record Collaborators : Type := mkEnv {
  retrieve_information : option string -> outcome string;
  tavily_tool : option string -> outcome search_output;
  arxiv_tool : option string -> outcome string;
  chat_model : list message -> outcome message
}.

Definition invoke_tool {A} (tool : collaborator)
    (f : option string -> outcome A) (query : option string) : M A :=
  _ <- emit (ToolCall tool query) ;; lift (f query).

Definition invoke_model (env : Collaborators) (msgs : list message)
  : M message :=
  _ <- emit (ModelCall msgs) ;; lift (chat_model env msgs).

(** ** The tool nodes *)

(** The first lines of every tool node: the question of the state, or
    else the latest human message. *)
Definition question_of (state : AgentState) : option string :=
  let question := state_get (question state) "" in
  if negb (truthy question) then
    match last_human_message (messages state) with
    | Some c => Some c
    | None => question
    end
  else question.

Definition only_messages (msgs : list message) : Update :=
  {| u_messages := msgs; u_tool_choice := None; u_question := None |}.

Definition use_rag_tool (env : Collaborators) (state : AgentState)
  : M Update :=
  let question := question_of state in
  try_except
    (rag_result <- invoke_tool Retrieval (retrieve_information env) question ;;
     let tool_message := SystemMessage ("RAG Tool Result: " +++ rag_result) in
     ret (only_messages [tool_message]))
    (fun e =>
       let error_message := SystemMessage ("RAG tool error: " +++ exc_str e) in
       ret (only_messages [error_message])).

Definition newline : string := String (ascii_of_nat 10) "".

Definition get_or (v : option string) (default : string) : string :=
  match v with Some s => s | None => default end.

Definition format_hit (r : search_hit) : string :=
  "- " +++ get_or (hit_title r) "No title" +++ ": "
       +++ get_or (hit_content r) "No content".

(** The comprehension over [search_result]; the characters of a text
    have no [get]. *)
Definition format_results (search_result : search_output) : outcome string :=
  match search_result with
  | SearchHits hits => Returned (join newline (map format_hit hits))
  | SearchText "" => Returned (join newline [])
  | SearchText _ =>
      Raised (mkExc "AttributeError" "'str' object has no attribute 'get'")
  end.

Definition use_web_search_tool (env : Collaborators) (state : AgentState)
  : M Update :=
  let question := question_of state in
  try_except
    (search_result <- invoke_tool WebSearch (tavily_tool env) question ;;
     formatted_results <- lift (format_results search_result) ;;
     let tool_message :=
       SystemMessage ("Web Search Results: " +++ formatted_results) in
     ret (only_messages [tool_message]))
    (fun e =>
       let error_message :=
         SystemMessage ("Web search error: " +++ exc_str e) in
       ret (only_messages [error_message])).

(** Reading a local variable that may not have been assigned. *)
Definition read_local {A} (name : string) (v : option A) : M A :=
  match v with
  | Some a => ret a
  | None =>
      raise (mkExc "UnboundLocalError"
               ("cannot access local variable '" +++ name
                +++ "' where it is not associated with a value"))
  end.

(** In [use_arxiv_tool] the handler returns [tool_message], a local that
    the [try] body assigns only in its last statement before returning:
    whenever the handler runs, it is still unassigned. *)
Definition use_arxiv_tool (env : Collaborators) (state : AgentState)
  : M Update :=
  let question := question_of state in
  let tool_message_in_handler : option message := None in
  try_except
    (arxiv_result <- invoke_tool AcademicSearch (arxiv_tool env) question ;;
     let tool_message :=
       SystemMessage ("ArXiv Search Results: " +++ arxiv_result) in
     ret (only_messages [tool_message]))
    (fun e =>
       let error_message :=
         SystemMessage ("ArXiv search error: " +++ exc_str e) in
       tool_message <- read_local "tool_message" tool_message_in_handler ;;
       ret (only_messages [tool_message])).

(** ** Response generation and routing *)

Definition system_prompt : message :=
  SystemMessage "You are a helpful assistant. If tool results are provided in the conversation, use them to answer the user's question. If no tool results are available, answer based on your knowledge.".

Definition generate_response (env : Collaborators) (state : AgentState)
  : M Update :=
  let messages := messages state in
  let model_messages := [system_prompt] ++ messages in
  response <- invoke_model env model_messages ;;
  ret (only_messages [response]).

(** [value == s] for an [Optional[str]] value. *)
Definition py_eq (v : option string) (s : string) : bool :=
  match v with
  | Some x => String.eqb x s
  | None => false
  end.

Definition route_to_tool (state : AgentState) : string :=
  let tool_choice := state_get (tool_choice state) "direct" in
  if py_eq tool_choice "rag" then "use_rag"
  else if py_eq tool_choice "web_search" then "use_web_search"
  else if py_eq tool_choice "arxiv" then "use_arxiv"
  else "generate_response".

(** ** The graph and its execution *)

Definition END : string := "__end__".

(** What [build_graph] assembles: named nodes, an entry point, plain
    edges and conditional edges (a router and the map from its labels
    to node names). *)
Record StateGraph : Type := mkGraph {
  nodes : list (string * (AgentState -> M Update));
  entry_point : string;
  conditional_edges :
    list (string * ((AgentState -> string) * list (string * string)));
  edges : list (string * string)
}.

Fixpoint lookup {V} (key : string) (table : list (string * V)) : option V :=
  match table with
  | [] => None
  | (k, v) :: rest => if String.eqb key k then Some v else lookup key rest
  end.

Definition pure_node (f : AgentState -> Update) : AgentState -> M Update :=
  fun state => ret (f state).

Definition build_graph (env : Collaborators) : StateGraph :=
  {| nodes :=
       [ ("analyze_question", pure_node analyze_question);
         ("use_rag", use_rag_tool env);
         ("use_web_search", use_web_search_tool env);
         ("use_arxiv", use_arxiv_tool env);
         ("generate_response", generate_response env) ];
     entry_point := "analyze_question";
     conditional_edges :=
       [ ("analyze_question",
          (route_to_tool,
           [ ("use_rag", "use_rag");
             ("use_web_search", "use_web_search");
             ("use_arxiv", "use_arxiv");
             ("generate_response", "generate_response") ])) ];
     edges :=
       [ ("use_rag", "generate_response");
         ("use_web_search", "generate_response");
         ("use_arxiv", "generate_response");
         ("generate_response", END) ] |}.

(** The node that runs after [cur], read in the state [cur] has just
    updated.  Every node of this graph has one successor. *)
Definition next_node (g : StateGraph) (cur : string) (state : AgentState)
  : M string :=
  match lookup cur (conditional_edges g) with
  | Some (router, path_map) =>
      match lookup (router state) path_map with
      | Some target => ret target
      | None => raise (mkExc "KeyError" (router state))
      end
  | None =>
      match lookup cur (edges g) with
      | Some target => ret target
      | None => ret END
      end
  end.

(** The number of steps after which the framework gives up. *)
Definition recursion_limit : nat := 25.

(** Running the graph from node [cur]: the node's update is merged into
    the state, an exception of a node ends the run, and the run stops
    at [END]. *)
Fixpoint run (g : StateGraph) (fuel : nat) (cur : string)
    (state : AgentState) : M AgentState :=
  if String.eqb cur END then ret state
  else
    match fuel with
    | 0 => raise (mkExc "GraphRecursionError" "Recursion limit reached")
    | S fuel' =>
        match lookup cur (nodes g) with
        | None => raise (mkExc "ValueError" cur)
        | Some node =>
            _ <- emit (NodeStep cur) ;;
            update <- node state ;;
            let state' := apply_update state update in
            next <- next_node g cur state' ;;
            run g fuel' next state'
        end
    end.

(** [graph.invoke(input)]. *)
Definition invoke (g : StateGraph) (input : AgentState) : M AgentState :=
  run g recursion_limit (entry_point g) input.

(** The state a caller builds from a conversation alone, as in
    [graph.invoke({"messages": messages})]. *)
Definition initial_state (conversation : list message) : AgentState :=
  {| messages := add_messages [] conversation;
     tool_choice := None;
     question := None |}.

(** The entry point: the conversation in, the extended conversation
    out. *)
Definition route_and_respond (env : Collaborators)
    (conversation : list message) : M (list message) :=
  final <- invoke (build_graph env) (initial_state conversation) ;;
  ret (messages final).

(** ** The run, written out

    What [invoke] amounts to on [build_graph]: analysis, at most one
    tool node, response generation. *)

Definition node_step (name : string) (node : AgentState -> M Update)
    (state : AgentState) : M AgentState :=
  _ <- emit (NodeStep name) ;;
  update <- node state ;;
  ret (apply_update state update).

(** The state after the analysis node. *)
Definition analyzed (state : AgentState) : AgentState :=
  apply_update state (analyze_question state).

(** The tool node that [route_to_tool] and the path map select. *)
Definition selected_tool (env : Collaborators) (state : AgentState)
  : option (string * (AgentState -> M Update)) :=
  let tool_choice := state_get (tool_choice state) "direct" in
  if py_eq tool_choice "rag" then Some ("use_rag", use_rag_tool env)
  else if py_eq tool_choice "web_search"
       then Some ("use_web_search", use_web_search_tool env)
  else if py_eq tool_choice "arxiv" then Some ("use_arxiv", use_arxiv_tool env)
  else None.

Definition tool_stage (env : Collaborators) (state : AgentState)
  : M AgentState :=
  match selected_tool env state with
  | Some (name, node) => node_step name node state
  | None => ret state
  end.

Definition pipeline (env : Collaborators) (state : AgentState)
  : M AgentState :=
  analyzed <- node_step "analyze_question" (pure_node analyze_question) state ;;
  augmented <- tool_stage env analyzed ;;
  node_step "generate_response" (generate_response env) augmented.

(** The text of the message each tool node appends. *)
Definition rag_text (o : outcome string) : string :=
  match o with
  | Returned rag_result => "RAG Tool Result: " +++ rag_result
  | Raised e => "RAG tool error: " +++ exc_str e
  end.

Definition web_text (o : outcome search_output) : string :=
  match o with
  | Returned search_result =>
      match format_results search_result with
      | Returned formatted_results =>
          "Web Search Results: " +++ formatted_results
      | Raised e => "Web search error: " +++ exc_str e
      end
  | Raised e => "Web search error: " +++ exc_str e
  end.

Definition unbound_tool_message : py_exception :=
  mkExc "UnboundLocalError"
    "cannot access local variable 'tool_message' where it is not associated with a value".

(** ** Observations on a trace *)

Definition is_tool_call (ev : event) : bool :=
  match ev with ToolCall _ _ => true | _ => false end.

Definition is_model_call (ev : event) : bool :=
  match ev with ModelCall _ => true | _ => false end.

Definition is_step_of (name : string) (ev : event) : bool :=
  match ev with NodeStep n => String.eqb n name | _ => false end.

Definition is_node_step (ev : event) : bool :=
  match ev with NodeStep _ => true | _ => false end.

Definition node_steps {A} (m : M A) : list event :=
  filter is_node_step (trace m).

Definition tool_calls {A} (m : M A) : list event :=
  filter is_tool_call (trace m).

Definition model_calls {A} (m : M A) : list event :=
  filter is_model_call (trace m).

Definition steps_of {A} (name : string) (m : M A) : nat :=
  length (filter (is_step_of name) (trace m)).

(** Sample collaborators for concrete runs. *)
Definition timeout_error : py_exception :=
  mkExc "TimeoutError" "request timed out".

Definition sample_reply : message := AIMessage "Here is my answer.".

Definition healthy_env : Collaborators :=
  {| retrieve_information := fun _ => Returned "Loan facts";
     tavily_tool := fun _ =>
       Returned (SearchHits [mkHit (Some "Headline") (Some "Body"); mkHit None None]);
     arxiv_tool := fun _ => Returned "Paper list";
     chat_model := fun _ => Returned sample_reply |}.

(** Every tool collaborator raises; the chat model answers. *)
Definition failing_tools_env : Collaborators :=
  {| retrieve_information := fun _ => Raised timeout_error;
     tavily_tool := fun _ => Raised timeout_error;
     arxiv_tool := fun _ => Raised timeout_error;
     chat_model := fun _ => Returned sample_reply |}.

(** The chat model raises. *)
Definition failing_model_env : Collaborators :=
  {| retrieve_information := fun _ => Returned "Loan facts";
     tavily_tool := fun _ => Returned (SearchHits []);
     arxiv_tool := fun _ => Returned "Paper list";
     chat_model := fun _ => Raised timeout_error |}.

(** The finance and education keywords as the specification names them
    ("loan, tuition, grant, aid, repayment"), to compare with
    [rag_keywords]. *)
Definition finance_keywords_named_by_spec : list string :=
  [ "loan"; "tuition"; "grant"; "aid"; "repayment" ].

Definition all_keywords : list string :=
  rag_keywords ++ web_keywords ++ arxiv_keywords.

Definition loans_question : string :=
  "What type of student loans are available to freshmen?".
Definition news_question : string :=
  "What is the latest news on AI research?".
Definition hello_question : string := "Hello, how are you?".
Definition paper_question : string :=
  "Which research paper introduced transformers?".
Definition car_loan_question : string := "How do I get a car loan?".
Definition wallpaper_question : string := "How do I hang wallpaper?".
Definition mixed_question : string :=
  "What is the latest research on student loan repayment?".

(** * The other programs of the repository *)

(** ** Results without a call log *)

Definition obind {A B} (o : outcome A) (k : A -> outcome B) : outcome B :=
  match o with
  | Returned a => k a
  | Raised e => Raised e
  end.

(** [try: body  except Exception as e: handler(e)] on a body that only
    returns or raises. *)
Definition ocatch {A} (body : outcome A) (handler : py_exception -> outcome A)
  : outcome A :=
  match body with
  | Returned a => Returned a
  | Raised e => handler e
  end.

(** [x or default] on an [Optional[str]]. *)
Definition py_or (v : option string) (default : string) : string :=
  if truthy v then get_or v default else default.

(** ** [main.py] of the deployed agent *)

Module AppMain.

(** What [main] prints: the question with the answer, or the raw
    response. *)
Inductive printed : Type :=
| QuestionAndAnswer (question answer : string)
| RawResponse (response : AgentState).

Definition question : string :=
  "What type of student loans are available to freshmen?".

(** [graph.invoke(...)] is outside any handler: an exception of the run
    leaves [main]. *)
Definition main (env : Collaborators) : outcome printed :=
  obind (result (invoke (build_graph env)
                   (initial_state [HumanMessage question])))
    (fun response =>
       if 1 <? length (messages response) then
         let ai_message := last (messages response) (AIMessage "") in
         Returned (QuestionAndAnswer question (content ai_message))
       else Returned (RawResponse response)).

End AppMain.

(** ** [app/models.py] *)

Module Models.

(** The arguments [get_chat_model] hands to [ChatTogether]; [F] stands
    for the floating-point temperature, which is passed through. *)
Record ChatTogether (F : Type) : Type := mkChat {
  model : string;
  temperature : F;
  max_tokens : option nat;
  timeout : option nat;
  max_retries : nat
}.

Arguments mkChat {F}.
Arguments model {F}.
Arguments temperature {F}.
Arguments max_tokens {F}.
Arguments timeout {F}.
Arguments max_retries {F}.

Definition get_chat_model {F} (model_name : option string) (temperature : F)
  : ChatTogether F :=
  let name := py_or model_name "openai/gpt-oss-20b" in
  mkChat name temperature None None 2.

End Models.

(** ** [bible_api.py] *)

Module BibleApi.

(** The answer of [requests.get]: the status code and what
    [response.json()] gives, a dictionary of texts, when it is called. *)
Record response : Type := mkResponse {
  status_code : nat;
  json : outcome (list (string * string))
}.

Definition url_of (query : string) : string :=
  "https://bible-api.com/" +++ query.

Definition bible_search (get : string -> outcome response) (query : string)
  : outcome string :=
  obind (get (url_of query))
    (fun response =>
       if status_code response =? 200 then
         obind (json response)
           (fun data =>
              let search_results :=
                match lookup "text" data with
                | Some text => text
                | None => "Verse not found."
                end in
              Returned search_results)
       else
         let search_results := "Error fetching verse." in
         Returned search_results).

End BibleApi.

(** ** [server.py] *)

Module McpServer.

(** [s.count(c)] for a one-character [c]. *)
Fixpoint count_char (c : ascii) (s : string) : nat :=
  match s with
  | EmptyString => 0
  | String a s' => (if Ascii.eqb a c then 1 else 0) + count_char c s'
  end.

Definition r_counter (query : string) : nat :=
  count_char "r"%char query.

End McpServer.

(** ** [langgraph_client.py] *)

Module McpClient.

(** One item of a tool result; an item that is no text has no [text]
    attribute. *)
Record content_item : Type := mkItem {
  item_type : string;
  text : option string
}.

(** The answer of [session.call_tool]: [content] may be [None]. *)
Record call_result : Type := mkResult {
  result_content : option (list content_item)
}.

(** A tool as [session.list_tools] describes it. *)
Record tool_info : Type := mkTool {
  name : string;
  description : option string
}.

(** The session: the arguments of a call are the keyword arguments,
    names with values. *)
Record ClientSession : Type := mkSession {
  call_tool : string -> list (string * string) -> outcome call_result;
  list_tools : outcome (list tool_info)
}.

Record MCPToolWrapper : Type := mkWrapper {
  wrapper_name : string;
  wrapper_description : string;
  _session : ClientSession;
  _tool_name : string
}.

(** [MCPToolWrapper(session, tool_name, tool_description)]. *)
Definition new_wrapper (session : ClientSession)
    (tool_name tool_description : string) : MCPToolWrapper :=
  {| wrapper_name := tool_name;
     wrapper_description := tool_description;
     _session := session;
     _tool_name := tool_name |}.

(** [result.content[0].text]. *)
Definition first_text (items : list content_item) : outcome string :=
  match items with
  | [] => Raised (mkExc "IndexError" "list index out of range")
  | item :: _ =>
      match text item with
      | Some t => Returned t
      | None =>
          Raised (mkExc "AttributeError"
                    ("'" +++ item_type item
                     +++ "' object has no attribute 'text'"))
      end
  end.

Definition _arun (self : MCPToolWrapper) (kwargs : list (string * string))
  : outcome string :=
  ocatch
    (obind (call_tool (_session self) (_tool_name self) kwargs)
       (fun result =>
          match result_content result with
          | Some ((_ :: _) as items) => first_text items
          | _ => Returned "No content returned"
          end))
    (fun e =>
       Returned ("Error calling tool " +++ _tool_name self +++ ": "
                 +++ exc_str e)).

Definition _run (self : MCPToolWrapper) (kwargs : list (string * string))
  : outcome string :=
  Raised (mkExc "NotImplementedError"
            "This tool only supports async operations").

Definition create_mcp_tools (session : ClientSession)
  : outcome (list MCPToolWrapper) :=
  obind (list_tools session)
    (fun tools_result =>
       Returned
         (map (fun tool =>
                 new_wrapper session (name tool)
                   (py_or (description tool) ("Tool: " +++ name tool)))
              tools_result)).

End McpClient.

(** ** [15_A2A_LangGraph/client.py] *)

Module A2A.

Record AgentCard : Type := mkCard {
  card_name : string;
  card_url : string
}.

Record ClientState : Type := mkClientState {
  messages : list (list (string * string));
  discovered_agents : list AgentCard;
  current_agent : option AgentCard;
  user_input : string;
  response : string;
  task_id : option string;
  context_id : option string;
  is_complete : bool;
  error : option string
}.

(** [ClientState(user_input=user_input)]: every other field at its
    default. *)
Definition new_state (user_input : string) : ClientState :=
  {| messages := [];
     discovered_agents := [];
     current_agent := None;
     user_input := user_input;
     response := "";
     task_id := None;
     context_id := None;
     is_complete := false;
     error := None |}.

(** The calls a run makes on the outside. *)
Inductive call : Type :=
| GetAgentCard
| CreateClient (agent_card : AgentCard)
| SendMessage (agent_card : AgentCard) (content context_id task_id : string)
| CloseClient.

(** The outside of one run: the card resolver; the construction of the
    A2A client; [send_message], which stands for building the message
    parameters and sending them, and whose answer may be [None] or an
    object without [content]; the identifiers [uuid4] draws, in order;
    and [httpx_client.aclose]. *)
Record Remote : Type := mkRemote {
  get_agent_card : outcome AgentCard;
  create_client : AgentCard -> outcome unit;
  send_message :
    AgentCard -> string -> string -> string -> outcome (option (option string));
  uuid4 : nat -> string;
  aclose : outcome unit
}.

(** A piece of a node: it may call the outside, assign to fields of the
    state object, and raise; assignments made before an exception
    stay. *)
Definition Act (A : Type) : Type :=
  ClientState -> list call * ClientState * outcome A.

Definition pure {A} (a : A) : Act A := fun s => ([], s, Returned a).

Definition andthen {A B} (m : Act A) (k : A -> Act B) : Act B :=
  fun s =>
    match m s with
    | (c, s', Returned a) =>
        match k a s' with (c', s'', r) => (c ++ c', s'', r) end
    | (c, s', Raised e) => (c, s', Raised e)
    end.

Definition attempt {A} (body : Act A) (handler : py_exception -> Act A)
  : Act A :=
  fun s =>
    match body s with
    | (c, s', Returned a) => (c, s', Returned a)
    | (c, s', Raised e) =>
        match handler e s' with (c', s'', r) => (c ++ c', s'', r) end
    end.

Definition outside {A} (what : call) (o : outcome A) : Act A :=
  fun s => ([what], s, o).

Definition read {A} (f : ClientState -> A) : Act A :=
  fun s => ([], s, Returned (f s)).

Definition assign (f : ClientState -> ClientState) : Act unit :=
  fun s => ([], f s, Returned tt).

Notation "x <~ m ;; k" := (andthen m (fun x => k))
  (at level 61, m at next level, right associativity).

Definition set_discovered_agents (v : list AgentCard) (s : ClientState) :=
  mkClientState (messages s) v (current_agent s) (user_input s) (response s)
    (task_id s) (context_id s) (is_complete s) (error s).

Definition set_current_agent (v : option AgentCard) (s : ClientState) :=
  mkClientState (messages s) (discovered_agents s) v (user_input s)
    (response s) (task_id s) (context_id s) (is_complete s) (error s).

Definition set_response (v : string) (s : ClientState) :=
  mkClientState (messages s) (discovered_agents s) (current_agent s)
    (user_input s) v (task_id s) (context_id s) (is_complete s) (error s).

Definition set_task_id (v : option string) (s : ClientState) :=
  mkClientState (messages s) (discovered_agents s) (current_agent s)
    (user_input s) (response s) v (context_id s) (is_complete s) (error s).

Definition set_context_id (v : option string) (s : ClientState) :=
  mkClientState (messages s) (discovered_agents s) (current_agent s)
    (user_input s) (response s) (task_id s) v (is_complete s) (error s).

Definition set_is_complete (v : bool) (s : ClientState) :=
  mkClientState (messages s) (discovered_agents s) (current_agent s)
    (user_input s) (response s) (task_id s) (context_id s) v (error s).

Definition set_error (v : option string) (s : ClientState) :=
  mkClientState (messages s) (discovered_agents s) (current_agent s)
    (user_input s) (response s) (task_id s) (context_id s) (is_complete s) v.

(** A node of the graph: the state in, the calls made and the state
    out, unless the node raises. *)
Definition Node : Type := ClientState -> list call * outcome ClientState.

(** [async def node(self, state): ...; return state]. *)
Definition node_of (body : Act unit) : Node :=
  fun s =>
    match body s with
    | (c, s', Returned _) => (c, Returned s')
    | (c, _, Raised e) => (c, Raised e)
    end.

Definition discover_agents (remote : Remote) : Node :=
  node_of
    (attempt
       (discovered <~
          attempt
            (agent_card <~ outside GetAgentCard (get_agent_card remote) ;;
             pure ([] ++ [agent_card]))
            (fun e => pure []) ;;
        _ <~ assign (set_discovered_agents discovered) ;;
        match discovered with
        | first :: _ => assign (set_current_agent (Some first))
        | [] => pure tt
        end)
       (fun e =>
          assign (set_error
                    (Some ("Failed to discover agents: " +++ exc_str e))))).

Definition analyze_user_input (remote : Remote) : Node :=
  node_of
    (current <~ read current_agent ;;
     match current with
     | None => assign (set_error (Some "No agents available for delegation"))
     | Some _ =>
         attempt
           (state_input <~ read user_input ;;
            let user_input := lower state_input in
            pure tt)
           (fun e =>
              assign (set_error
                        (Some ("Failed to analyze input: " +++ exc_str e))))
     end).

Definition delegate_to_remote_agent (remote : Remote) : Node :=
  node_of
    (current <~ read current_agent ;;
     err <~ read error ;;
     match current with
     | None => pure tt
     | Some agent_card =>
         if truthy err then pure tt
         else
           attempt
             (client <~ outside (CreateClient agent_card)
                          (create_client remote agent_card) ;;
              _ <~ assign (set_context_id (Some (uuid4 remote 0))) ;;
              _ <~ assign (set_task_id (Some (uuid4 remote 1))) ;;
              content <~ read user_input ;;
              response <~
                outside
                  (SendMessage agent_card content (uuid4 remote 0)
                     (uuid4 remote 1))
                  (send_message remote agent_card content (uuid4 remote 0)
                     (uuid4 remote 1)) ;;
              match response with
              | Some (Some response_content) =>
                  _ <~ assign (set_response response_content) ;;
                  assign (set_is_complete true)
              | _ =>
                  assign (set_error
                            (Some "No response received from remote agent"))
              end)
             (fun e =>
                assign (set_error
                          (Some ("Delegation failed: " +++ exc_str e))))
     end).

Definition format_response (remote : Remote) : Node :=
  node_of
    (err <~ read error ;;
     answer <~ read response ;;
     current <~ read current_agent ;;
     if truthy err then
       assign (set_response ("Error: " +++ get_or err ""))
     else if negb (String.eqb answer "") then
       let agent_name :=
         match current with
         | Some agent_card => card_name agent_card
         | None => "Unknown"
         end in
       assign (set_response
                 ("Response from " +++ agent_name +++ ":" +++ newline
                  +++ newline +++ answer))
     else pure tt).

Definition cleanup (remote : Remote) : Node :=
  node_of
    (attempt (outside CloseClient (aclose remote)) (fun e => pure tt)).

(** The compiled graph of [build_client_graph] is the chain
    [discover_agents], [analyze_input], [delegate_task],
    [format_response], [cleanup]; a node that raises ends the run. *)
Definition then_node (first second : Node) : Node :=
  fun s =>
    match first s with
    | (c, Returned s') =>
        match second s' with (c', r) => (c ++ c', r) end
    | (c, Raised e) => (c, Raised e)
    end.

Definition client_graph (remote : Remote) : Node :=
  then_node (discover_agents remote)
    (then_node (analyze_user_input remote)
       (then_node (delegate_to_remote_agent remote)
          (then_node (format_response remote) (cleanup remote)))).

(** [str.strip()]: the blanks of ASCII text. *)
Definition is_space (c : ascii) : bool :=
  let n := nat_of_ascii c in
  ((9 <=? n) && (n <=? 13)) || ((28 <=? n) && (n <=? 32)).

Fixpoint lstrip (s : string) : string :=
  match s with
  | EmptyString => EmptyString
  | String c s' => if is_space c then lstrip s' else s
  end.

Fixpoint reverse (s : string) : string :=
  match s with
  | EmptyString => EmptyString
  | String c s' => reverse s' +++ String c EmptyString
  end.

Definition rstrip (s : string) : string := reverse (lstrip (reverse s)).

Definition strip (s : string) : string := rstrip (lstrip s).

(** What the loop of [main] prints for one line of input. *)
Inductive printed : Type :=
| Goodbye
| Processing
| AgentSays (response : string)
| NoResponse
| GraphError (e : py_exception)
| UnexpectedError (e : py_exception).

Definition is_quit (user_input : string) : bool :=
  existsb (String.eqb (lower user_input)) ["quit"; "exit"; "q"].

(** The loop of [main] over the lines typed, after the banner and with
    the graph built once; the outside of the [run]-th graph run is
    [remote run]; when the lines run out [input()] raises [EOFError],
    which the outer handler prints. *)
Fixpoint main_loop (remote : nat -> Remote) (run : nat) (lines : list string)
  : list printed * list call :=
  match lines with
  | [] => ([UnexpectedError (mkExc "EOFError" "EOF when reading a line")], [])
  | line :: rest =>
      let user_input := strip line in
      if is_quit user_input then ([Goodbye], [])
      else if String.eqb user_input "" then main_loop remote run rest
      else
        let initial_state := new_state user_input in
        let (calls, outcome_of_run) := client_graph (remote run) initial_state in
        let shown :=
          match outcome_of_run with
          | Returned result =>
              if negb (String.eqb (response result) "")
              then AgentSays (response result)
              else NoResponse
          | Raised e => GraphError e
          end in
        let (later, later_calls) := main_loop remote (S run) rest in
        (Processing :: shown :: later, calls ++ later_calls)
  end.

(** Observations on what [main_loop] printed and called. *)
Definition is_processing (p : printed) : bool :=
  match p with Processing => true | _ => false end.

Definition is_close (c : call) : bool :=
  match c with CloseClient => true | _ => false end.

(** A line that is not blank once stripped. *)
Definition typed (line : string) : bool :=
  negb (String.eqb (strip line) "").

(** Sample outsides for concrete runs. *)
Definition sample_card : AgentCard := mkCard "Helper" "http://localhost:10000".

Definition healthy_remote : Remote :=
  {| get_agent_card := Returned sample_card;
     create_client := fun _ => Returned tt;
     send_message := fun _ content _ _ => Returned (Some (Some ("You said " +++ content)));
     uuid4 := fun n => if n =? 0 then "ctx-1" else "task-1";
     aclose := Returned tt |}.

Definition unreachable_remote : Remote :=
  {| get_agent_card := Raised (mkExc "ConnectError" "connection refused");
     create_client := fun _ => Returned tt;
     send_message := fun _ _ _ _ => Returned None;
     uuid4 := fun n => if n =? 0 then "ctx-1" else "task-1";
     aclose := Raised (mkExc "RuntimeError" "already closed") |}.

Definition broken_remote : Remote :=
  {| get_agent_card := Returned sample_card;
     create_client := fun _ => Returned tt;
     send_message := fun _ _ _ _ => Raised (mkExc "ReadTimeout" "timed out");
     uuid4 := fun n => if n =? 0 then "ctx-1" else "task-1";
     aclose := Returned tt |}.

End A2A.

(** * Properties *)

(** ** The [in] operator is substring containment *)

Section TextFacts.

Lemma starts_with_iff (k s : string) :
  starts_with k s = true <-> exists post, s = k +++ post.
Proof.
  revert s; induction k as [|a k IH]; intros s; simpl.
  - split; [intros _; now exists s | reflexivity].
  - destruct s as [|b s].
    + split; [discriminate | intros [post H]; discriminate].
    + rewrite andb_true_iff, Ascii.eqb_eq, IH. split.
      * intros [-> [post ->]]. now exists post.
      * intros [post H]. injection H as -> ->. split; [reflexivity | now exists post].
Qed.

Lemma contains_iff (s k : string) :
  contains s k = true <-> Substring k s.
Proof.
  unfold Substring. split.
  - induction s as [|c s IH]; simpl; rewrite orb_true_iff.
    + intros [H | H]; [|discriminate].
      apply starts_with_iff in H as [post ->]. now exists "", post.
    + intros [H | H].
      * apply starts_with_iff in H as [post H]. now exists "", post.
      * destruct (IH H) as (pre & post & ->). now exists (String c pre), post.
  - intros (pre & post & ->). induction pre as [|c pre IH]; simpl.
    + assert (H : starts_with k (k +++ post) = true)
        by (apply starts_with_iff; now exists post).
      destruct (k +++ post); simpl; rewrite H; reflexivity.
    + rewrite IH. apply orb_true_r.
Qed.

Lemma contains_false_iff (s k : string) :
  contains s k = false <-> ~ Substring k s.
Proof.
  rewrite <- contains_iff. destruct (contains s k); split; congruence.
Qed.

Lemma any_keyword_iff (keywords : list string) (text : string) :
  any_keyword keywords text = true <->
  exists k, In k keywords /\ Substring k text.
Proof.
  unfold any_keyword. rewrite existsb_exists.
  split; intros (k & Hin & H); exists k; split; auto; now apply contains_iff.
Qed.

Lemma any_keyword_false_iff (keywords : list string) (text : string) :
  any_keyword keywords text = false <->
  forall k, In k keywords -> ~ Substring k text.
Proof.
  split.
  - intros H k Hin Hsub.
    assert (any_keyword keywords text = true)
      by (apply any_keyword_iff; eauto).
    congruence.
  - intros H. destruct (any_keyword keywords text) eqn:E; [|reflexivity].
    apply any_keyword_iff in E as (k & Hin & Hsub). now destruct (H k Hin).
Qed.

(** [lower] leaves no capital letter behind, so a keyword written with
    capitals can never occur in a lower-cased question. *)
Lemma lower_ascii_not_upper (c : ascii) : is_upper (lower_ascii c) = false.
Proof.
  destruct c as [[] [] [] [] [] [] [] []]; reflexivity.
Qed.

Lemma has_upper_app (a b : string) :
  has_upper (a +++ b) = has_upper a || has_upper b.
Proof.
  induction a as [|c a IH]; simpl; [reflexivity|].
  now rewrite IH, orb_assoc.
Qed.

Lemma has_upper_lower (s : string) : has_upper (lower s) = false.
Proof.
  induction s as [|c s IH]; simpl; [reflexivity|].
  now rewrite lower_ascii_not_upper, IH.
Qed.

Lemma upper_keyword_never_matches (k q : string) :
  has_upper k = true -> contains (lower q) k = false.
Proof.
  intros Hk. apply contains_false_iff. intros (pre & post & H).
  pose proof (has_upper_lower q) as Hq. rewrite H in Hq.
  rewrite !has_upper_app, Hk in Hq.
  rewrite orb_true_l, orb_true_r in Hq. discriminate.
Qed.

(** [lower] works character by character, so text that is already in
    lower case and occurs in the question occurs in the lower-cased
    question too. *)
Lemma lower_app (a b : string) : lower (a +++ b) = lower a +++ lower b.
Proof.
  induction a as [|c a IH]; simpl; [reflexivity | now rewrite IH].
Qed.

Lemma lower_ascii_fixed (c : ascii) : is_upper c = false -> lower_ascii c = c.
Proof.
  unfold is_upper, lower_ascii. now intros ->.
Qed.

Lemma lower_fixed (s : string) : has_upper s = false -> lower s = s.
Proof.
  induction s as [|c s IH]; simpl; [reflexivity|].
  rewrite orb_false_iff. intros [Hc Hs].
  now rewrite lower_ascii_fixed, IH.
Qed.

Lemma substring_lower (k q : string) :
  has_upper k = false -> Substring k q -> Substring k (lower q).
Proof.
  intros Hk (pre & post & ->). exists (lower pre), (lower post).
  now rewrite !lower_app, (lower_fixed k Hk).
Qed.

End TextFacts.

(** ** Classification *)

Section Classification.

Lemma find_all_false {A} (f : A -> bool) (l : list A) :
  (forall x, In x l -> f x = false) -> find f l = None.
Proof.
  induction l as [|a l IH]; simpl; intros H; [reflexivity|].
  rewrite (H a) by now left. apply IH. intros x Hx. apply H. now right.
Qed.

Lemma find_app_skip {A} (f : A -> bool) (l1 l2 : list A) :
  find f l1 = None -> find f (l1 ++ l2) = find f l2.
Proof.
  induction l1 as [|a l1 IH]; simpl; [reflexivity|].
  destruct (f a); [discriminate | exact IH].
Qed.

(** The scan runs from the newest message to the oldest: the question
    is the latest human message. *)
Lemma last_human_message_newest (older newer : list message) (q : string) :
  (forall m, In m newer -> is_human m = false) ->
  last_human_message (older ++ HumanMessage q :: newer) = Some q.
Proof.
  intros Hnew. unfold last_human_message.
  rewrite rev_app_distr. simpl. rewrite <- app_assoc.
  rewrite find_app_skip.
  - reflexivity.
  - apply find_all_false. intros m Hm. apply Hnew. now apply in_rev.
Qed.

Lemma last_human_message_none (msgs : list message) :
  (forall m, In m msgs -> is_human m = false) ->
  last_human_message msgs = None.
Proof.
  intros H. unfold last_human_message.
  rewrite find_all_false; [reflexivity|].
  intros m Hm. apply H. now apply in_rev.
Qed.

(** [analyze_question] on a state whose latest human message is [q]. *)
Lemma analyze_question_of (state : AgentState) (q : string) :
  last_human_message (messages state) = Some q ->
  analyze_question state =
  match tools_to_use q with
  | [] => decision "direct" q
  | tool :: _ => decision tool q
  end.
Proof.
  intros H. unfold analyze_question. rewrite H. simpl.
  destruct (String.eqb q "") eqn:E; [|reflexivity].
  apply String.eqb_eq in E. subst q. reflexivity.
Qed.

Lemma tools_to_use_rag (q : string) :
  _should_use_rag q = true -> tools_to_use q = ["rag"].
Proof. unfold tools_to_use. now intros ->. Qed.

Lemma tools_to_use_web (q : string) :
  _should_use_rag q = false -> _should_use_web_search q = true ->
  tools_to_use q = ["web_search"].
Proof. unfold tools_to_use. now intros -> ->. Qed.

Lemma tools_to_use_arxiv (q : string) :
  _should_use_rag q = false -> _should_use_web_search q = false ->
  _should_use_arxiv q = true ->
  tools_to_use q = ["arxiv"].
Proof. unfold tools_to_use. now intros -> -> ->. Qed.

Lemma tools_to_use_none (q : string) :
  _should_use_rag q = false -> _should_use_web_search q = false ->
  _should_use_arxiv q = false ->
  tools_to_use q = [].
Proof. unfold tools_to_use. now intros -> -> ->. Qed.

(** The choice is always one of the four labels. *)
Lemma analyze_question_choice (state : AgentState) :
  exists c q,
    analyze_question state = decision c q /\
    (c = "rag" \/ c = "web_search" \/ c = "arxiv" \/ c = "direct").
Proof.
  unfold analyze_question.
  destruct (negb (truthy (last_human_message (messages state)))).
  - exists "direct", "". auto.
  - set (q := match last_human_message (messages state) with
              | Some q => q | None => "" end).
    unfold tools_to_use.
    destruct (_should_use_rag q); [exists "rag", q; simpl; auto|].
    destruct (_should_use_web_search q);
      [exists "web_search", q; simpl; auto|].
    destruct (_should_use_arxiv q); [exists "arxiv", q; simpl; auto|].
    exists "direct", q. auto.
Qed.

End Classification.

(** C2 (as amended).  Whenever the lower-cased latest question contains
    one of the phrases of [rag_keywords], [analyze_question] chooses the
    retrieval tool ["rag"], whatever recency or research keywords the
    question holds besides. *)
Theorem finance_keyword_routes_to_retrieval
    (state : AgentState) (q k : string) :
  last_human_message (messages state) = Some q ->
  In k rag_keywords ->
  Substring k (lower q) ->
  analyze_question state = decision "rag" q.
Proof.
  intros Hlast Hin Hsub.
  rewrite (analyze_question_of state q Hlast).
  rewrite tools_to_use_rag; [reflexivity|].
  apply any_keyword_iff. eauto.
Qed.

(** A question with finance, recency and research keywords at once goes
    to retrieval. *)
Lemma finance_keyword_routes_to_retrieval_witness :
  _should_use_web_search mixed_question = true /\
  _should_use_arxiv mixed_question = true /\
  analyze_question (initial_state [HumanMessage mixed_question])
  = decision "rag" mixed_question.
Proof.
  split; [reflexivity|]. split; [reflexivity|].
  apply (finance_keyword_routes_to_retrieval _ _ "student loan").
  - reflexivity.
  - simpl; auto.
  - apply contains_iff. reflexivity.
Defined.

(** C2 as the specification words it fails: "loan" alone, which the
    specification names as a keyword, is no keyword of the code, and a
    question about a car loan gets the choice ["direct"]. *)
Lemma bare_loan_is_not_a_retrieval_keyword :
  exists (state : AgentState) (q k : string),
    last_human_message (messages state) = Some q /\
    In k finance_keywords_named_by_spec /\
    Substring k (lower q) /\
    analyze_question state = decision "direct" q /\
    analyze_question state <> decision "rag" q.
Proof.
  exists (initial_state [HumanMessage car_loan_question]),
         car_loan_question, "loan".
  split; [reflexivity|]. split; [simpl; auto|].
  split; [apply contains_iff; reflexivity|].
  assert (H : analyze_question (initial_state [HumanMessage car_loan_question])
              = decision "direct" car_loan_question)
    by (vm_compute; reflexivity).
  split; [exact H | rewrite H; discriminate].
Qed.

(** C3.  Whenever the lower-cased latest question contains a recency
    keyword and no finance keyword, [analyze_question] chooses
    ["web_search"]; and "What is the latest news on AI research?", which
    holds recency and research keywords and no finance keyword, is
    sent to ["web_search"]. *)
Theorem recency_keyword_routes_to_web_search :
  (forall (state : AgentState) (q : string),
      last_human_message (messages state) = Some q ->
      (exists k, In k web_keywords /\ Substring k (lower q)) ->
      (forall k, In k rag_keywords -> ~ Substring k (lower q)) ->
      analyze_question state = decision "web_search" q) /\
  ((exists k, In k web_keywords /\ Substring k (lower news_question)) /\
   (exists k, In k arxiv_keywords /\ Substring k (lower news_question)) /\
   (forall k, In k rag_keywords -> ~ Substring k (lower news_question)) /\
   analyze_question (initial_state [HumanMessage news_question])
   = decision "web_search" news_question).
Proof.
  split.
  - intros state q Hlast Hweb Hrag.
    rewrite (analyze_question_of state q Hlast).
    rewrite tools_to_use_web; [reflexivity | |].
    + now apply any_keyword_false_iff.
    + now apply any_keyword_iff.
  - split; [|split; [|split]].
    + exists "latest". split; [simpl; auto | apply contains_iff; reflexivity].
    + exists "research". split; [simpl; auto | apply contains_iff; reflexivity].
    + apply any_keyword_false_iff. reflexivity.
    + reflexivity.
Qed.

Lemma recency_keyword_routes_to_web_search_witness :
  analyze_question
    (mkState [HumanMessage loans_question; AIMessage "Several.";
              HumanMessage "Any update today?"] None None)
  = decision "web_search" "Any update today?".
Proof.
  apply (proj1 recency_keyword_routes_to_web_search).
  - reflexivity.
  - exists "today". split; [simpl; auto | apply contains_iff; reflexivity].
  - apply any_keyword_false_iff. reflexivity.
Defined.

(** X22.  Whenever the lower-cased text of the latest question contains
    an entry of [arxiv_keywords] and neither a finance nor a recency
    keyword, [analyze_question] chooses ["arxiv"]. *)
Theorem research_keyword_routes_to_academic_search
    (state : AgentState) (q : string) :
  last_human_message (messages state) = Some q ->
  (exists k, In k arxiv_keywords /\ Substring k (lower q)) ->
  (forall k, In k rag_keywords -> ~ Substring k (lower q)) ->
  (forall k, In k web_keywords -> ~ Substring k (lower q)) ->
  analyze_question state = decision "arxiv" q.
Proof.
  intros Hlast Harxiv Hrag Hweb.
  rewrite (analyze_question_of state q Hlast).
  rewrite tools_to_use_arxiv; [reflexivity | | |].
  - now apply any_keyword_false_iff.
  - now apply any_keyword_false_iff.
  - now apply any_keyword_iff.
Qed.

Lemma research_keyword_routes_to_academic_search_witness :
  analyze_question (initial_state [HumanMessage paper_question])
  = decision "arxiv" paper_question.
Proof.
  apply research_keyword_routes_to_academic_search.
  - reflexivity.
  - exists "paper". split; [simpl; auto | apply contains_iff; reflexivity].
  - apply any_keyword_false_iff. reflexivity.
  - apply any_keyword_false_iff. reflexivity.
Defined.

(** The entry ["AI"] of [arxiv_keywords] is written in capitals and is
    compared with lower-cased text: it matches no question, and
    "What is AI?" gets the choice ["direct"]. *)
Lemma capital_AI_keyword_is_dead (q : string) :
  In "AI" arxiv_keywords /\
  contains (lower q) "AI" = false /\
  analyze_question (initial_state [HumanMessage "What is AI?"])
  = decision "direct" "What is AI?".
Proof.
  split; [simpl; tauto|].
  split; [now apply upper_keyword_never_matches | reflexivity].
Qed.

(** C4 (the failing input).  "What is AI?" contains the research keyword
    ["AI"] of [arxiv_keywords] and no finance or recency keyword, as
    typed and in lower case; but the list entry is in capitals and the
    test runs on the lower-cased question, where it occurs in no
    question at all: [_should_use_arxiv] answers [false] and the choice
    is ["direct"], not ["arxiv"]. *)
Theorem capital_AI_question_goes_direct :
  let q := "What is AI?" in
  In "AI" arxiv_keywords /\
  Substring "AI" q /\
  (forall k, In k rag_keywords ->
             ~ Substring k q /\ ~ Substring k (lower q)) /\
  (forall k, In k web_keywords ->
             ~ Substring k q /\ ~ Substring k (lower q)) /\
  (forall question, ~ Substring "AI" (lower question)) /\
  _should_use_arxiv q = false /\
  analyze_question (initial_state [HumanMessage q]) = decision "direct" q /\
  analyze_question (initial_state [HumanMessage q]) <> decision "arxiv" q.
Proof.
  cbv zeta.
  assert (Hdirect :
            analyze_question (initial_state [HumanMessage "What is AI?"])
            = decision "direct" "What is AI?") by (vm_compute; reflexivity).
  split; [simpl; tauto|].
  split; [exists "What is ", "?"; reflexivity|].
  split; [|split; [|split; [|split; [|split]]]].
  - intros k Hk. split; revert k Hk; apply any_keyword_false_iff;
      vm_compute; reflexivity.
  - intros k Hk. split; revert k Hk; apply any_keyword_false_iff;
      vm_compute; reflexivity.
  - intros question. apply contains_false_iff.
    now apply upper_keyword_never_matches.
  - vm_compute; reflexivity.
  - exact Hdirect.
  - rewrite Hdirect. discriminate.
Qed.

(** C7.  In a conversation without a human message the scan finds
    nothing, and [analyze_question] answers ["direct"] with the empty
    question. *)
Theorem no_user_message_is_direct (state : AgentState) :
  (forall m, In m (messages state) -> is_human m = false) ->
  last_human_message (messages state) = None /\
  analyze_question state = decision "direct" "".
Proof.
  intros H. pose proof (last_human_message_none _ H) as Hnone.
  split; [exact Hnone|].
  unfold analyze_question. now rewrite Hnone.
Qed.

Lemma no_user_message_is_direct_witness :
  last_human_message [SystemMessage "Be brief."; AIMessage "Hello!"] = None /\
  analyze_question
    (mkState [SystemMessage "Be brief."; AIMessage "Hello!"]
             (Some (Some "rag")) (Some (Some "old question")))
  = decision "direct" "".
Proof.
  apply (no_user_message_is_direct
           (mkState [SystemMessage "Be brief."; AIMessage "Hello!"]
                    (Some (Some "rag")) (Some (Some "old question")))).
  simpl. intros m [<- | [<- | []]]; reflexivity.
Defined.

(** C10.  Each test is substring containment in the lower-cased
    question; "How do I hang wallpaper?" has no keyword as a word of its
    own, contains ["paper"] inside "wallpaper" and no other keyword, and
    is sent to ["arxiv"]. *)
Theorem keyword_inside_longer_word :
  (forall q,
      (_should_use_rag q = true <->
       exists k, In k rag_keywords /\ Substring k (lower q)) /\
      (_should_use_web_search q = true <->
       exists k, In k web_keywords /\ Substring k (lower q)) /\
      (_should_use_arxiv q = true <->
       exists k, In k arxiv_keywords /\ Substring k (lower q))) /\
  (exists q k,
      In k arxiv_keywords /\
      Substring k (lower q) /\
      ~ In k (words (lower q)) /\
      (forall k', In k' all_keywords ->
                  Substring k' (lower q) -> k' = k) /\
      (forall k', In k' all_keywords -> ~ In k' (words (lower q))) /\
      analyze_question (initial_state [HumanMessage q])
      = decision "arxiv" q).
Proof.
  split.
  - intros q. repeat split; intros H;
      solve [now apply any_keyword_iff | now apply any_keyword_iff in H].
  - exists wallpaper_question, "paper".
    split; [simpl; auto|].
    split; [apply contains_iff; reflexivity|].
    split; [simpl; intuition discriminate|].
    split; [|split; [|reflexivity]].
    + intros k' Hin Hsub. apply contains_iff in Hsub.
      simpl in Hin.
      repeat (destruct Hin as [<- | Hin];
              [first [reflexivity | discriminate Hsub]|]).
      destruct Hin.
    + intros k' Hin Hw. simpl in Hin, Hw.
      repeat (destruct Hin as [<- | Hin];
              [intuition discriminate|]).
      destruct Hin.
Qed.

(** ** The nodes, one by one *)

Section Nodes.

Variable env : Collaborators.

Lemma use_rag_tool_eq (state : AgentState) :
  use_rag_tool env state =
  ([ToolCall Retrieval (question_of state)],
   Returned (only_messages
     [SystemMessage (rag_text (retrieve_information env (question_of state)))])).
Proof.
  unfold use_rag_tool, invoke_tool, rag_text. simpl.
  destruct (retrieve_information env (question_of state)); reflexivity.
Qed.

Lemma use_web_search_tool_eq (state : AgentState) :
  use_web_search_tool env state =
  ([ToolCall WebSearch (question_of state)],
   Returned (only_messages
     [SystemMessage (web_text (tavily_tool env (question_of state)))])).
Proof.
  unfold use_web_search_tool, invoke_tool, web_text. simpl.
  destruct (tavily_tool env (question_of state)) as [[hits | text] | e];
    try reflexivity.
  destruct text; reflexivity.
Qed.

Lemma use_arxiv_tool_eq (state : AgentState) :
  use_arxiv_tool env state =
  ([ToolCall AcademicSearch (question_of state)],
   match arxiv_tool env (question_of state) with
   | Returned arxiv_result =>
       Returned (only_messages
         [SystemMessage ("ArXiv Search Results: " +++ arxiv_result)])
   | Raised _ => Raised unbound_tool_message
   end).
Proof.
  unfold use_arxiv_tool, invoke_tool. simpl.
  destruct (arxiv_tool env (question_of state)); reflexivity.
Qed.

Lemma generate_response_eq (state : AgentState) :
  generate_response env state =
  ([ModelCall (system_prompt :: messages state)],
   match chat_model env (system_prompt :: messages state) with
   | Returned response => Returned (only_messages [response])
   | Raised e => Raised e
   end).
Proof.
  unfold generate_response, invoke_model. simpl.
  destruct (chat_model env (system_prompt :: messages state)); reflexivity.
Qed.

Lemma run_END (g : StateGraph) (fuel : nat) (state : AgentState) :
  run g fuel END state = ret state.
Proof. destruct fuel; reflexivity. Qed.

End Nodes.

(** ** The monad's laws *)

Section MonadLaws.

Context {A B C : Type}.

Lemma bind_ret_l (a : A) (k : A -> M B) : bind (ret a) k = k a.
Proof. unfold bind, ret. now destruct (k a). Qed.

Lemma bind_ret_r (m : M A) : bind m ret = m.
Proof.
  destruct m as [t [a | e]]; simpl; [|reflexivity].
  now rewrite app_nil_r.
Qed.

Lemma bind_assoc (m : M A) (k : A -> M B) (h : B -> M C) :
  bind (bind m k) h = bind m (fun a => bind (k a) h).
Proof.
  destruct m as [t [a | e]]; simpl; [|reflexivity].
  destruct (k a) as [t1 [b | e]]; simpl; [|reflexivity].
  destruct (h b) as [t2 r]. now rewrite app_assoc.
Qed.

Lemma bind_ext (m : M A) (k k' : A -> M B) :
  (forall a, k a = k' a) -> bind m k = bind m k'.
Proof.
  intros H. destruct m as [t [a | e]]; simpl; [|reflexivity].
  now rewrite H.
Qed.

End MonadLaws.

(** ** The graph run is the pipeline *)

Section GraphRun.

Variable env : Collaborators.

Lemma run_S (g : StateGraph) (fuel : nat) (cur : string)
    (state : AgentState) :
  run g (S fuel) cur state =
  if String.eqb cur END then ret state
  else
    match lookup cur (nodes g) with
    | None => raise (mkExc "ValueError" cur)
    | Some node =>
        _ <- emit (NodeStep cur) ;;
        update <- node state ;;
        next <- next_node g cur (apply_update state update) ;;
        run g fuel next (apply_update state update)
    end.
Proof. reflexivity. Qed.

Lemma run_step (g : StateGraph) (fuel : nat) (cur : string)
    (state : AgentState) (node : AgentState -> M Update) :
  String.eqb cur END = false ->
  lookup cur (nodes g) = Some node ->
  run g (S fuel) cur state =
  bind (node_step cur node state)
       (fun state' =>
          bind (next_node g cur state')
               (fun next => run g fuel next state')).
Proof.
  intros Hend Hnode. rewrite run_S, Hend, Hnode.
  unfold node_step. rewrite !bind_assoc.
  apply bind_ext; intros _. apply bind_ext; intros update.
  now rewrite bind_ret_l.
Qed.

Lemma route_to_tool_label (state : AgentState) :
  route_to_tool state = "use_rag" \/
  route_to_tool state = "use_web_search" \/
  route_to_tool state = "use_arxiv" \/
  route_to_tool state = "generate_response".
Proof.
  unfold route_to_tool.
  destruct (py_eq _ "rag"); [auto|].
  destruct (py_eq _ "web_search"); [auto|].
  destruct (py_eq _ "arxiv"); auto.
Qed.

Lemma next_node_analyze (state : AgentState) :
  next_node (build_graph env) "analyze_question" state
  = ret (route_to_tool state).
Proof.
  unfold next_node. simpl.
  destruct (route_to_tool_label state) as [H | [H | [H | H]]];
    rewrite H; reflexivity.
Qed.

Lemma run_generate_response (fuel : nat) (state : AgentState) :
  run (build_graph env) (S fuel) "generate_response" state
  = node_step "generate_response" (generate_response env) state.
Proof.
  rewrite (run_step _ _ _ _ (generate_response env)) by reflexivity.
  rewrite <- (bind_ret_r (node_step _ _ _)) at 2.
  apply bind_ext; intros state'.
  change (next_node (build_graph env) "generate_response" state')
    with (@ret string END).
  now rewrite bind_ret_l, run_END.
Qed.

Lemma run_tool_node (fuel : nat) (name : string)
    (node : AgentState -> M Update) (state : AgentState) :
  (name, node) = ("use_rag", use_rag_tool env) \/
  (name, node) = ("use_web_search", use_web_search_tool env) \/
  (name, node) = ("use_arxiv", use_arxiv_tool env) ->
  run (build_graph env) (S (S fuel)) name state
  = bind (node_step name node state)
         (node_step "generate_response" (generate_response env)).
Proof.
  intros [H | [H | H]]; injection H as -> ->;
    (erewrite run_step; [| reflexivity | reflexivity]);
    apply bind_ext; intros state';
    match goal with
    | |- context [next_node ?g ?n ?s] =>
        change (next_node g n s) with (@ret string "generate_response")
    end;
    now rewrite bind_ret_l, run_generate_response.
Qed.

Lemma route_to_tool_selected (fuel : nat) (state : AgentState) :
  run (build_graph env) (S (S fuel)) (route_to_tool state) state
  = bind (tool_stage env state)
         (node_step "generate_response" (generate_response env)).
Proof.
  unfold route_to_tool, tool_stage, selected_tool.
  destruct (py_eq _ "rag");
    [apply run_tool_node; auto|].
  destruct (py_eq _ "web_search");
    [apply run_tool_node; auto|].
  destruct (py_eq _ "arxiv");
    [apply run_tool_node; auto|].
  now rewrite bind_ret_l, run_generate_response.
Qed.

(** Three steps of fuel are enough for any run. *)
Lemma run_from_entry (fuel : nat) (state : AgentState) :
  run (build_graph env) (S (S (S fuel))) "analyze_question" state
  = pipeline env state.
Proof.
  unfold pipeline.
  rewrite (run_step _ _ _ _ (pure_node analyze_question)) by reflexivity.
  apply bind_ext; intros analyzed.
  now rewrite next_node_analyze, bind_ret_l, route_to_tool_selected.
Qed.

Lemma invoke_pipeline (state : AgentState) :
  invoke (build_graph env) state = pipeline env state.
Proof. apply (run_from_entry 22). Qed.

End GraphRun.

(** ** What a run does, case by case *)

Section Outcome.

Variable env : Collaborators.

Lemma analyzed_messages (state : AgentState) :
  messages (analyzed state) = messages state.
Proof.
  unfold analyzed.
  destruct (analyze_question_choice state) as (c & q & -> & _).
  simpl. apply app_nil_r.
Qed.

Lemma node_step_analyze (state : AgentState) :
  node_step "analyze_question" (pure_node analyze_question) state
  = ([NodeStep "analyze_question"], Returned (analyzed state)).
Proof. reflexivity. Qed.

Lemma node_step_generate (state : AgentState) :
  node_step "generate_response" (generate_response env) state
  = ([NodeStep "generate_response";
      ModelCall (system_prompt :: messages state)],
     match chat_model env (system_prompt :: messages state) with
     | Returned reply =>
         Returned (mkState (messages state ++ [reply])
                           (tool_choice state) (question state))
     | Raised e => Raised e
     end).
Proof.
  unfold node_step. rewrite generate_response_eq. simpl.
  destruct (chat_model env (system_prompt :: messages state)); reflexivity.
Qed.

(** The tool stage: no tool, or one tool call whose outcome becomes one
    system message, or the failure of the academic search. *)
Lemma tool_stage_outcome (state : AgentState) :
  (route_to_tool state = "generate_response" /\
   tool_stage env state = ret state)
  \/
  (exists name tool text,
      (name = "use_rag" \/ name = "use_web_search" \/ name = "use_arxiv") /\
      route_to_tool state = name /\
      tool_stage env state =
      ([NodeStep name; ToolCall tool (question_of state)],
       Returned (mkState (messages state ++ [SystemMessage text])
                         (tool_choice state) (question state))))
  \/
  (route_to_tool state = "use_arxiv" /\
   (exists e, arxiv_tool env (question_of state) = Raised e) /\
   tool_stage env state =
   ([NodeStep "use_arxiv"; ToolCall AcademicSearch (question_of state)],
    Raised unbound_tool_message)).
Proof.
  unfold route_to_tool, tool_stage, selected_tool.
  destruct (py_eq _ "rag").
  { right; left.
    exists "use_rag", Retrieval,
      (rag_text (retrieve_information env (question_of state))).
    unfold node_step. rewrite use_rag_tool_eq. auto. }
  destruct (py_eq _ "web_search").
  { right; left.
    exists "use_web_search", WebSearch,
      (web_text (tavily_tool env (question_of state))).
    unfold node_step. rewrite use_web_search_tool_eq. auto. }
  destruct (py_eq _ "arxiv"); [|now left].
  unfold node_step. rewrite use_arxiv_tool_eq.
  destruct (arxiv_tool env (question_of state)) as [r | e] eqn:E.
  - right; left.
    exists "use_arxiv", AcademicSearch, ("ArXiv Search Results: " +++ r).
    auto.
  - right; right. eauto.
Qed.

(** The shape of every run of the graph. *)
Lemma invoke_outcome (state : AgentState) :
  (exists pre added,
      invoke (build_graph env) state =
      (NodeStep "analyze_question" :: pre ++
         [NodeStep "generate_response";
          ModelCall (system_prompt :: messages state ++ added)],
       match chat_model env (system_prompt :: messages state ++ added) with
       | Returned reply =>
           Returned (mkState (messages state ++ added ++ [reply])
                             (tool_choice (analyzed state))
                             (question (analyzed state)))
       | Raised e => Raised e
       end) /\
      ((pre = [] /\ added = [] /\
        route_to_tool (analyzed state) = "generate_response") \/
       (exists name tool text,
           (name = "use_rag" \/ name = "use_web_search" \/
            name = "use_arxiv") /\
           route_to_tool (analyzed state) = name /\
           pre = [NodeStep name;
                  ToolCall tool (question_of (analyzed state))] /\
           added = [SystemMessage text])))
  \/
  (route_to_tool (analyzed state) = "use_arxiv" /\
   (exists e, arxiv_tool env (question_of (analyzed state)) = Raised e) /\
   invoke (build_graph env) state =
   ([NodeStep "analyze_question"; NodeStep "use_arxiv";
     ToolCall AcademicSearch (question_of (analyzed state))],
    Raised unbound_tool_message)).
Proof.
  rewrite invoke_pipeline. unfold pipeline.
  rewrite node_step_analyze. unfold bind at 1.
  pose proof (analyzed_messages state) as Hm.
  destruct (tool_stage_outcome (analyzed state))
    as [[Hr Hs] | [(name & tool & text & Hn & Hr & Hs) | (Hr & He & Hs)]].
  - left. exists [], []. split; [|left; auto].
    rewrite Hs, bind_ret_l, node_step_generate, Hm.
    rewrite !app_nil_r. reflexivity.
  - left. exists [NodeStep name; ToolCall tool (question_of (analyzed state))],
                 [SystemMessage text].
    split; [|right; exists name, tool, text; auto].
    rewrite Hs. unfold bind.
    rewrite node_step_generate. cbn [messages tool_choice question].
    rewrite Hm. f_equal.
    destruct (chat_model env _); [rewrite <- app_assoc|]; reflexivity.
  - right. split; [exact Hr|]. split; [exact He|].
    unfold bind at 1. now rewrite Hs.
Qed.

End Outcome.

(** ** The entry point *)

Section EntryPoint.

Variable env : Collaborators.

Lemma route_and_respond_outcome (conv : list message) :
  (exists pre added,
      route_and_respond env conv =
      (NodeStep "analyze_question" :: pre ++
         [NodeStep "generate_response";
          ModelCall (system_prompt :: conv ++ added)],
       match chat_model env (system_prompt :: conv ++ added) with
       | Returned reply => Returned (conv ++ added ++ [reply])
       | Raised e => Raised e
       end) /\
      ((pre = [] /\ added = [] /\
        route_to_tool (analyzed (initial_state conv)) = "generate_response")
       \/
       (exists name tool text,
           (name = "use_rag" \/ name = "use_web_search" \/
            name = "use_arxiv") /\
           route_to_tool (analyzed (initial_state conv)) = name /\
           pre = [NodeStep name;
                  ToolCall tool (question_of (analyzed (initial_state conv)))] /\
           added = [SystemMessage text])))
  \/
  (route_to_tool (analyzed (initial_state conv)) = "use_arxiv" /\
   (exists e,
       arxiv_tool env (question_of (analyzed (initial_state conv)))
       = Raised e) /\
   route_and_respond env conv =
   ([NodeStep "analyze_question"; NodeStep "use_arxiv";
     ToolCall AcademicSearch (question_of (analyzed (initial_state conv)))],
    Raised unbound_tool_message)).
Proof.
  unfold route_and_respond.
  destruct (invoke_outcome env (initial_state conv))
    as [(pre & added & Hrun & Hshape) | (Hr & He & Hrun)]; rewrite Hrun.
  - left. exists pre, added. split; [|exact Hshape].
    cbn [initial_state messages add_messages app].
    unfold bind.
    destruct (chat_model env (system_prompt :: conv ++ added)); simpl;
      [rewrite app_nil_r|]; reflexivity.
  - right. auto.
Qed.

(** After a choice of ["direct"] the router goes straight to the
    response. *)
Lemma direct_choice_routes_to_response (state : AgentState) (q : string) :
  analyze_question state = decision "direct" q ->
  route_to_tool (analyzed state) = "generate_response".
Proof. unfold analyzed. now intros ->. Qed.

(** After the choice of a tool, the tool is called with the question. *)
Lemma question_of_analyzed (state : AgentState) (c q : string) :
  last_human_message (messages state) = Some q ->
  analyze_question state = decision c q ->
  question_of (analyzed state) = Some q.
Proof.
  intros Hlast Hc. unfold analyzed. rewrite Hc.
  unfold question_of. cbn [apply_update question decision u_question
                           overwrite state_get messages u_messages
                           add_messages truthy].
  destruct (String.eqb q ""); cbn [negb]; [|reflexivity].
  unfold add_messages. now rewrite app_nil_r, Hlast.
Qed.

End EntryPoint.

(** C5.  When the lower-cased latest question contains no keyword of the
    three sets, [analyze_question] chooses ["direct"], the run calls no
    tool, and the conversation that is returned is the input followed by
    the model's reply alone (a failure of the model is the only other
    outcome). *)
Theorem no_keyword_goes_direct
    (env : Collaborators) (conv : list message) (q : string) :
  last_human_message conv = Some q ->
  (forall k, In k all_keywords -> ~ Substring k (lower q)) ->
  analyze_question (initial_state conv) = decision "direct" q /\
  tool_calls (route_and_respond env conv) = [] /\
  trace (route_and_respond env conv) =
    [NodeStep "analyze_question"; NodeStep "generate_response";
     ModelCall (system_prompt :: conv)] /\
  result (route_and_respond env conv) =
    match chat_model env (system_prompt :: conv) with
    | Returned reply => Returned (conv ++ [reply])
    | Raised e => Raised e
    end.
Proof.
  intros Hlast Hnone.
  assert (Hdirect : analyze_question (initial_state conv) = decision "direct" q).
  { rewrite (analyze_question_of (initial_state conv) q Hlast).
    rewrite tools_to_use_none; [reflexivity | | |];
      apply any_keyword_false_iff; intros k Hk; apply Hnone;
      unfold all_keywords; rewrite !in_app_iff; auto. }
  split; [exact Hdirect|].
  pose proof (direct_choice_routes_to_response _ _ Hdirect) as Hroute.
  destruct (route_and_respond_outcome env conv)
    as [(pre & added & Hrun & [(-> & -> & _) | (n & t & x & Hn & Hr & _)])
       | (Hr & _)].
  - rewrite Hrun, app_nil_r. unfold tool_calls, trace, result. simpl.
    repeat split.
  - rewrite Hroute in Hr. subst n.
    destruct Hn as [Hn | [Hn | Hn]]; discriminate Hn.
  - rewrite Hroute in Hr. discriminate Hr.
Qed.

Lemma no_keyword_goes_direct_witness :
  analyze_question (initial_state [HumanMessage hello_question])
  = decision "direct" hello_question /\
  tool_calls (route_and_respond healthy_env [HumanMessage hello_question])
  = [] /\
  trace (route_and_respond healthy_env [HumanMessage hello_question]) =
    [NodeStep "analyze_question"; NodeStep "generate_response";
     ModelCall [system_prompt; HumanMessage hello_question]] /\
  result (route_and_respond healthy_env [HumanMessage hello_question])
  = Returned [HumanMessage hello_question; sample_reply].
Proof.
  apply (no_keyword_goes_direct healthy_env
           [HumanMessage hello_question] hello_question).
  - reflexivity.
  - apply any_keyword_false_iff. reflexivity.
Defined.

(** C6 (as amended).  Whenever [route_and_respond] returns, the result
    is the input conversation, unchanged, followed by at most one
    system message of a tool and then by the one reply of the model;
    and it returns whenever the chat model replies and the academic
    search does not raise. *)
Theorem route_and_respond_extends
    (env : Collaborators) (conv : list message) :
  (forall conv',
      result (route_and_respond env conv) = Returned conv' ->
      exists added reply,
        conv' = conv ++ added ++ [reply] /\
        length added <= 1 /\
        forallb is_system added = true /\
        chat_model env (system_prompt :: conv ++ added) = Returned reply) /\
  ((forall msgs, exists reply, chat_model env msgs = Returned reply) ->
   (forall query, exists found, arxiv_tool env query = Returned found) ->
   exists conv', result (route_and_respond env conv) = Returned conv').
Proof.
  destruct (route_and_respond_outcome env conv)
    as [(pre & added & Hrun & Hshape) | (Hr & (e & He) & Hrun)];
    rewrite Hrun; unfold result; cbn [snd].
  - assert (Hadded : length added <= 1 /\ forallb is_system added = true).
    { destruct Hshape as [(_ & -> & _) | (n & t & x & _ & _ & _ & ->)];
        simpl; auto. }
    split.
    + intros conv' H.
      destruct (chat_model env (system_prompt :: conv ++ added))
        as [reply | e] eqn:E; [|discriminate].
      injection H as <-. exists added, reply. tauto.
    + intros Hmodel _.
      destruct (Hmodel (system_prompt :: conv ++ added)) as [reply ->].
      eauto.
  - split; [discriminate|].
    intros _ Harxiv.
    destruct (Harxiv (question_of (analyzed (initial_state conv))))
      as [found Hfound].
    congruence.
Qed.

Lemma route_and_respond_extends_witness :
  exists added reply,
    [HumanMessage loans_question; SystemMessage "RAG Tool Result: Loan facts";
     sample_reply]
    = [HumanMessage loans_question] ++ added ++ [reply] /\
    length added <= 1 /\
    forallb is_system added = true /\
    chat_model healthy_env
      (system_prompt :: [HumanMessage loans_question] ++ added)
    = Returned reply.
Proof.
  apply (proj1 (route_and_respond_extends healthy_env
                  [HumanMessage loans_question])).
  reflexivity.
Defined.

(** C6 as the specification words it fails: when the chat model raises,
    [route_and_respond] returns no conversation at all. *)
Lemma model_failure_returns_no_conversation :
  result (route_and_respond failing_model_env [HumanMessage hello_question])
  = Raised timeout_error /\
  forall conv',
    result (route_and_respond failing_model_env [HumanMessage hello_question])
    <> Returned conv'.
Proof.
  assert (H : result (route_and_respond failing_model_env
                        [HumanMessage hello_question])
              = Raised timeout_error) by (vm_compute; reflexivity).
  split; [exact H | intros conv'; rewrite H; discriminate].
Qed.

(** C1 (the failing input).  The academic-search collaborator raises on
    a research question: the handler of [use_arxiv_tool] reads the
    unassigned [tool_message], an [UnboundLocalError] leaves the
    dispatch stage, no message is appended and the model is never
    called. *)
Theorem academic_search_failure_escapes :
  analyze_question (initial_state [HumanMessage paper_question])
  = decision "arxiv" paper_question /\
  arxiv_tool failing_tools_env (Some paper_question) = Raised timeout_error /\
  use_arxiv_tool failing_tools_env
    (analyzed (initial_state [HumanMessage paper_question]))
  = ([ToolCall AcademicSearch (Some paper_question)],
     Raised unbound_tool_message) /\
  route_and_respond failing_tools_env [HumanMessage paper_question]
  = ([NodeStep "analyze_question"; NodeStep "use_arxiv";
      ToolCall AcademicSearch (Some paper_question)],
     Raised unbound_tool_message).
Proof. repeat split. Qed.

(** C9 (the failing input).  On the same run the graph stops inside
    [use_arxiv]: the step [generate_response] is never reached. *)
Theorem academic_search_failure_skips_response :
  route_to_tool (analyzed (initial_state [HumanMessage paper_question]))
  = "use_arxiv" /\
  steps_of "generate_response"
    (invoke (build_graph failing_tools_env)
            (initial_state [HumanMessage paper_question])) = 0 /\
  model_calls
    (invoke (build_graph failing_tools_env)
            (initial_state [HumanMessage paper_question])) = [] /\
  result
    (invoke (build_graph failing_tools_env)
            (initial_state [HumanMessage paper_question]))
  = Raised unbound_tool_message.
Proof. repeat split. Qed.

(** C8.  [generate_response] calls the chat model once, on the fixed
    instruction message followed by the whole conversation; it returns
    the reply, and an exception of the model is its own outcome.  In a
    run of the graph the model is called at most once, and a failure of
    that call is the outcome of [route_and_respond]. *)
Theorem generate_response_single_model_call
    (env : Collaborators) (state : AgentState) :
  (trace (generate_response env state)
   = [ModelCall ([system_prompt] ++ messages state)] /\
   result (generate_response env state)
   = match chat_model env ([system_prompt] ++ messages state) with
     | Returned reply => Returned (only_messages [reply])
     | Raised e => Raised e
     end) /\
  (forall conv,
      length (model_calls (route_and_respond env conv)) <= 1 /\
      forall msgs e,
        In (ModelCall msgs) (trace (route_and_respond env conv)) ->
        chat_model env msgs = Raised e ->
        model_calls (route_and_respond env conv) = [ModelCall msgs] /\
        result (route_and_respond env conv) = Raised e).
Proof.
  split.
  - rewrite generate_response_eq. split; reflexivity.
  - intros conv.
    destruct (route_and_respond_outcome env conv)
      as [(pre & added & Hrun & Hshape) | (_ & _ & Hrun)]; rewrite Hrun.
    + assert (Hcalls :
        model_calls
          (NodeStep "analyze_question" :: pre ++
             [NodeStep "generate_response";
              ModelCall (system_prompt :: conv ++ added)],
           match chat_model env (system_prompt :: conv ++ added) with
           | Returned reply => Returned (conv ++ added ++ [reply])
           | Raised e => Raised e
           end)
        = [ModelCall (system_prompt :: conv ++ added)]).
      { destruct Hshape as [(-> & _) | (n & t & x & _ & _ & -> & _)];
          reflexivity. }
      rewrite Hcalls. split; [simpl; lia|].
      intros msgs e Hin Hraise.
      assert (Hin' : In (ModelCall msgs)
                        [ModelCall (system_prompt :: conv ++ added)]).
      { rewrite <- Hcalls. unfold model_calls.
        apply filter_In. split; [exact Hin | reflexivity]. }
      destruct Hin' as [Heq | []]. injection Heq as Heq.
      rewrite Heq. unfold result; cbn [snd]. now rewrite Hraise.
    + split; [simpl; lia|].
      intros msgs e Hin _. simpl in Hin.
      destruct Hin as [H | [H | [H | []]]]; discriminate H.
Qed.

Lemma generate_response_single_model_call_witness :
  model_calls (route_and_respond failing_model_env
                 [HumanMessage hello_question])
  = [ModelCall [system_prompt; HumanMessage hello_question]] /\
  result (route_and_respond failing_model_env [HumanMessage hello_question])
  = Raised timeout_error.
Proof.
  apply (proj2 (proj2 (generate_response_single_model_call
                         failing_model_env (initial_state []))
                      [HumanMessage hello_question])).
  - vm_compute. right. right. left. reflexivity.
  - reflexivity.
Defined.

(** ** Tool failures, path by path *)

Section CaughtFailures.

Variable env : Collaborators.

Lemma route_and_respond_staged (conv : list message) :
  route_and_respond env conv =
  let (t, r) :=
    bind (tool_stage env (analyzed (initial_state conv)))
         (node_step "generate_response" (generate_response env)) in
  (NodeStep "analyze_question" :: t,
   match r with
   | Returned final => Returned (messages final)
   | Raised e => Raised e
   end).
Proof.
  unfold route_and_respond. rewrite invoke_pipeline. unfold pipeline.
  rewrite node_step_analyze. unfold bind at 2.
  destruct (bind (tool_stage env (analyzed (initial_state conv))) _)
    as [t [final | e]]; simpl; [now rewrite app_nil_r | reflexivity].
Qed.

Lemma tool_stage_rag (state : AgentState) :
  py_eq (state_get (tool_choice state) "direct") "rag" = true ->
  tool_stage env state =
  ([NodeStep "use_rag"; ToolCall Retrieval (question_of state)],
   Returned
     (mkState
        (messages state ++
           [SystemMessage
              (rag_text (retrieve_information env (question_of state)))])
        (tool_choice state) (question state))).
Proof.
  intros H. unfold tool_stage, selected_tool. rewrite H.
  unfold node_step. now rewrite use_rag_tool_eq.
Qed.

Lemma tool_stage_web (state : AgentState) :
  py_eq (state_get (tool_choice state) "direct") "rag" = false ->
  py_eq (state_get (tool_choice state) "direct") "web_search" = true ->
  tool_stage env state =
  ([NodeStep "use_web_search"; ToolCall WebSearch (question_of state)],
   Returned
     (mkState
        (messages state ++
           [SystemMessage (web_text (tavily_tool env (question_of state)))])
        (tool_choice state) (question state))).
Proof.
  intros H1 H2. unfold tool_stage, selected_tool. rewrite H1, H2.
  unfold node_step. now rewrite use_web_search_tool_eq.
Qed.

(** A run through one of the two tools whose handlers are sound: the
    text [text] of the tool's message is appended and the model answers
    on the augmented conversation. *)
Lemma route_and_respond_via (conv : list message) (name : string)
    (tool : collaborator) (q text : string) :
  tool_stage env (analyzed (initial_state conv)) =
  ([NodeStep name; ToolCall tool (Some q)],
   Returned
     (mkState
        (messages (analyzed (initial_state conv)) ++ [SystemMessage text])
        (tool_choice (analyzed (initial_state conv)))
        (question (analyzed (initial_state conv))))) ->
  route_and_respond env conv =
  ([NodeStep "analyze_question"; NodeStep name; ToolCall tool (Some q);
    NodeStep "generate_response";
    ModelCall (system_prompt :: conv ++ [SystemMessage text])],
   match chat_model env (system_prompt :: conv ++ [SystemMessage text]) with
   | Returned reply => Returned (conv ++ [SystemMessage text; reply])
   | Raised e => Raised e
   end).
Proof.
  intros Hstage. rewrite route_and_respond_staged, Hstage.
  unfold bind. rewrite node_step_generate.
  cbn [messages tool_choice question].
  rewrite analyzed_messages. cbn [initial_state messages add_messages app].
  destruct (chat_model env _); cbn [messages];
    [rewrite <- app_assoc|]; reflexivity.
Qed.

Lemma tool_stage_arxiv (state : AgentState) :
  py_eq (state_get (tool_choice state) "direct") "rag" = false ->
  py_eq (state_get (tool_choice state) "direct") "web_search" = false ->
  py_eq (state_get (tool_choice state) "direct") "arxiv" = true ->
  tool_stage env state =
  node_step "use_arxiv" (use_arxiv_tool env) state.
Proof.
  intros H1 H2 H3. unfold tool_stage, selected_tool.
  now rewrite H1, H2, H3.
Qed.

(** Whatever the collaborators and the conversation, a research
    question whose academic search raises ends the run with the
    [UnboundLocalError] of the handler. *)
Lemma academic_search_failure_in_general
    (conv : list message) (q : string) (e : py_exception) :
  last_human_message conv = Some q ->
  tools_to_use q = ["arxiv"] ->
  arxiv_tool env (Some q) = Raised e ->
  route_and_respond env conv =
  ([NodeStep "analyze_question"; NodeStep "use_arxiv";
    ToolCall AcademicSearch (Some q)],
   Raised unbound_tool_message).
Proof.
  intros Hlast Htools Hraise.
  pose proof (analyze_question_of (initial_state conv) q Hlast) as Hdec.
  rewrite Htools in Hdec.
  rewrite route_and_respond_staged.
  rewrite tool_stage_arxiv by (unfold analyzed; now rewrite Hdec).
  unfold node_step. rewrite use_arxiv_tool_eq.
  rewrite (question_of_analyzed (initial_state conv) "arxiv" q Hlast Hdec).
  now rewrite Hraise.
Qed.

End CaughtFailures.

(** X1.  On the retrieval and web-search paths an exception of the tool
    is caught: its text becomes a system message ("RAG tool error: ..."
    or "Web search error: ..."), the model is called on the conversation
    with that message, and its reply ends the returned conversation. *)
Theorem retrieval_and_web_failures_are_caught
    (env : Collaborators) (conv : list message) (q : string)
    (e : py_exception) :
  last_human_message conv = Some q ->
  (_should_use_rag q = true ->
   retrieve_information env (Some q) = Raised e ->
   let error_message := SystemMessage ("RAG tool error: " +++ exc_str e) in
   route_and_respond env conv =
   ([NodeStep "analyze_question"; NodeStep "use_rag";
     ToolCall Retrieval (Some q); NodeStep "generate_response";
     ModelCall (system_prompt :: conv ++ [error_message])],
    match chat_model env (system_prompt :: conv ++ [error_message]) with
    | Returned reply => Returned (conv ++ [error_message; reply])
    | Raised e' => Raised e'
    end)) /\
  (_should_use_rag q = false ->
   _should_use_web_search q = true ->
   tavily_tool env (Some q) = Raised e ->
   let error_message := SystemMessage ("Web search error: " +++ exc_str e) in
   route_and_respond env conv =
   ([NodeStep "analyze_question"; NodeStep "use_web_search";
     ToolCall WebSearch (Some q); NodeStep "generate_response";
     ModelCall (system_prompt :: conv ++ [error_message])],
    match chat_model env (system_prompt :: conv ++ [error_message]) with
    | Returned reply => Returned (conv ++ [error_message; reply])
    | Raised e' => Raised e'
    end)).
Proof.
  intros Hlast.
  pose proof (analyze_question_of (initial_state conv) q Hlast) as Hdec.
  split.
  - intros Hrag Hraise error_message.
    rewrite (tools_to_use_rag q Hrag) in Hdec.
    apply route_and_respond_via.
    rewrite tool_stage_rag by (unfold analyzed; now rewrite Hdec).
    rewrite (question_of_analyzed (initial_state conv) "rag" q Hlast Hdec), Hraise.
    reflexivity.
  - intros Hrag Hweb Hraise error_message.
    rewrite (tools_to_use_web q Hrag Hweb) in Hdec.
    apply route_and_respond_via.
    rewrite tool_stage_web by (unfold analyzed; now rewrite Hdec).
    rewrite (question_of_analyzed (initial_state conv) "web_search" q Hlast Hdec), Hraise.
    reflexivity.
Qed.

Lemma retrieval_and_web_failures_are_caught_witness :
  route_and_respond failing_tools_env [HumanMessage loans_question] =
  ([NodeStep "analyze_question"; NodeStep "use_rag";
    ToolCall Retrieval (Some loans_question); NodeStep "generate_response";
    ModelCall [system_prompt; HumanMessage loans_question;
               SystemMessage "RAG tool error: request timed out"]],
   Returned [HumanMessage loans_question;
             SystemMessage "RAG tool error: request timed out";
             sample_reply]).
Proof.
  apply (proj1 (retrieval_and_web_failures_are_caught failing_tools_env
                  [HumanMessage loans_question] loans_question timeout_error
                  eq_refl));
    reflexivity.
Defined.

(** X2.  [route_to_tool] answers with one of the four labels of the path
    map, and with ["generate_response"] when [tool_choice] is missing,
    is [None], or is any text other than the three tool names. *)
Theorem route_to_tool_total (msgs : list message) (q : field) :
  (forall state,
      In (route_to_tool state)
         ["use_rag"; "use_web_search"; "use_arxiv"; "generate_response"]) /\
  route_to_tool (mkState msgs None q) = "generate_response" /\
  route_to_tool (mkState msgs (Some None) q) = "generate_response" /\
  (forall c, c <> "rag" -> c <> "web_search" -> c <> "arxiv" ->
             route_to_tool (mkState msgs (Some (Some c)) q)
             = "generate_response") /\
  route_to_tool (mkState msgs (Some (Some "rag")) q) = "use_rag" /\
  route_to_tool (mkState msgs (Some (Some "web_search")) q)
  = "use_web_search" /\
  route_to_tool (mkState msgs (Some (Some "arxiv")) q) = "use_arxiv".
Proof.
  split.
  { intros state. simpl.
    destruct (route_to_tool_label state) as [H | [H | [H | H]]];
      rewrite H; auto. }
  repeat split.
  intros c H1 H2 H3. unfold route_to_tool. simpl.
  apply String.eqb_neq in H1, H2, H3. now rewrite H1, H2, H3.
Qed.

Lemma route_to_tool_total_witness :
  route_to_tool (mkState [] (Some (Some "direct")) None)
  = "generate_response".
Proof.
  apply (proj1 (proj2 (proj2 (proj2 (route_to_tool_total [] None)))));
    discriminate.
Defined.

(** X3.  Every run of the graph ends after at most three node steps,
    whatever the recursion limit above three; and on every run that
    does not pass through a raising academic search,
    [generate_response] runs exactly once. *)
Theorem every_run_ends_within_three_steps
    (env : Collaborators) (state : AgentState) :
  (forall fuel,
      run (build_graph env) (3 + fuel) (entry_point (build_graph env)) state
      = invoke (build_graph env) state) /\
  length (node_steps (invoke (build_graph env) state)) <= 3 /\
  (route_to_tool (analyzed state) <> "use_arxiv" \/
   (exists found,
       arxiv_tool env (question_of (analyzed state)) = Returned found) ->
   steps_of "generate_response" (invoke (build_graph env) state) = 1).
Proof.
  split.
  { intros fuel. rewrite invoke_pipeline. apply run_from_entry. }
  destruct (invoke_outcome env state)
    as [(pre & added & Hrun & Hshape) | (Hr & (e & He) & Hrun)]; rewrite Hrun.
  - destruct Hshape as [(-> & _) | (n & t & x & Hn & _ & -> & _)].
    + split; [simpl; lia | reflexivity].
    + split; [simpl; lia|]. intros _.
      destruct Hn as [-> | [-> | ->]]; reflexivity.
  - split; [simpl; lia|].
    intros [H | [found H]]; [now destruct H | congruence].
Qed.

Lemma every_run_ends_within_three_steps_witness :
  steps_of "generate_response"
    (invoke (build_graph failing_tools_env)
            (initial_state [HumanMessage news_question])) = 1.
Proof.
  apply (proj2 (proj2 (every_run_ends_within_three_steps failing_tools_env
                         (initial_state [HumanMessage news_question])))).
  left. vm_compute. discriminate.
Defined.

(** X4.  A run calls at most one tool, and when the latest question
    holds a finance keyword the one call is the retrieval collaborator's,
    on that question. *)
Theorem at_most_one_tool_call
    (env : Collaborators) (conv : list message) :
  length (tool_calls (route_and_respond env conv)) <= 1 /\
  (forall q,
      last_human_message conv = Some q ->
      _should_use_rag q = true ->
      tool_calls (route_and_respond env conv)
      = [ToolCall Retrieval (Some q)]).
Proof.
  split.
  - destruct (route_and_respond_outcome env conv)
      as [(pre & added & Hrun & Hshape) | (_ & _ & Hrun)]; rewrite Hrun.
    + destruct Hshape as [(-> & _) | (n & t & x & _ & _ & -> & _)];
        simpl; lia.
    + simpl; lia.
  - intros q Hlast Hrag.
    pose proof (analyze_question_of (initial_state conv) q Hlast) as Hdec.
    rewrite (tools_to_use_rag q Hrag) in Hdec.
    rewrite (route_and_respond_via env conv "use_rag" Retrieval q
               (rag_text (retrieve_information env (Some q)))).
    + reflexivity.
    + rewrite tool_stage_rag by (unfold analyzed; now rewrite Hdec).
      now rewrite (question_of_analyzed (initial_state conv) "rag" q Hlast Hdec).
Qed.

Lemma at_most_one_tool_call_witness :
  tool_calls (route_and_respond healthy_env [HumanMessage loans_question])
  = [ToolCall Retrieval (Some loans_question)].
Proof.
  apply (proj2 (at_most_one_tool_call healthy_env
                  [HumanMessage loans_question])); reflexivity.
Defined.

(** X5.  A keyword of [rag_keywords] that occurs in the question as it
    was typed also occurs in the lower-cased question: such a question
    is sent to retrieval. *)
Theorem literal_finance_keyword_routes_to_retrieval
    (state : AgentState) (q k : string) :
  last_human_message (messages state) = Some q ->
  In k rag_keywords ->
  Substring k q ->
  analyze_question state = decision "rag" q.
Proof.
  intros Hlast Hin Hsub.
  rewrite (analyze_question_of state q Hlast).
  rewrite tools_to_use_rag; [reflexivity|].
  apply any_keyword_iff. exists k. split; [exact Hin|].
  apply substring_lower; [|exact Hsub].
  assert (Hall : forallb (fun w => negb (has_upper w)) rag_keywords = true)
    by reflexivity.
  rewrite forallb_forall in Hall. specialize (Hall k Hin).
  now destruct (has_upper k).
Qed.

Lemma literal_finance_keyword_routes_to_retrieval_witness :
  analyze_question
    (initial_state [HumanMessage "Is my tuition tax deductible?"])
  = decision "rag" "Is my tuition tax deductible?".
Proof.
  apply (literal_finance_keyword_routes_to_retrieval _ _ "tuition").
  - reflexivity.
  - simpl; tauto.
  - exists "Is my ", " tax deductible?". reflexivity.
Defined.

(** * Further properties of the router *)

Section RouterExtras.

Variable env : Collaborators.

Lemma route_and_respond_via_arxiv (conv : list message) (q found : string) :
  last_human_message conv = Some q ->
  tools_to_use q = ["arxiv"] ->
  arxiv_tool env (Some q) = Returned found ->
  tool_stage env (analyzed (initial_state conv)) =
  ([NodeStep "use_arxiv"; ToolCall AcademicSearch (Some q)],
   Returned
     (mkState
        (messages (analyzed (initial_state conv)) ++
           [SystemMessage ("ArXiv Search Results: " +++ found)])
        (tool_choice (analyzed (initial_state conv)))
        (question (analyzed (initial_state conv))))).
Proof.
  intros Hlast Htools Hfound.
  pose proof (analyze_question_of (initial_state conv) q Hlast) as Hdec.
  rewrite Htools in Hdec.
  rewrite tool_stage_arxiv by (unfold analyzed; now rewrite Hdec).
  unfold node_step. rewrite use_arxiv_tool_eq.
  rewrite (question_of_analyzed (initial_state conv) "arxiv" q Hlast Hdec).
  now rewrite Hfound.
Qed.

Lemma lower_idempotent (s : string) : lower (lower s) = lower s.
Proof. apply lower_fixed, has_upper_lower. Qed.

Lemma analyzed_ignores_fields (msgs : list message) (tc q tc' q' : field) :
  analyzed (mkState msgs tc q) = analyzed (mkState msgs tc' q').
Proof.
  unfold analyzed.
  change (analyze_question (mkState msgs tc' q'))
    with (analyze_question (mkState msgs tc q)).
  destruct (analyze_question_choice (mkState msgs tc q)) as (c & x & -> & _).
  reflexivity.
Qed.

Lemma sapp_assoc (a b c : string) : (a +++ b) +++ c = a +++ b +++ c.
Proof. induction a as [|x a IH]; simpl; [reflexivity | now rewrite IH]. Qed.

Lemma sapp_nil_r (a : string) : a +++ "" = a.
Proof. induction a as [|x a IH]; simpl; [reflexivity | now rewrite IH]. Qed.

Lemma join_snoc (sep : string) (parts : list string) (p : string) :
  parts <> [] ->
  join sep (parts ++ [p]) = join sep parts +++ sep +++ p.
Proof.
  induction parts as [|a parts IH]; intros Hne; [now destruct Hne|].
  destruct parts as [|b parts]; [reflexivity|].
  change (join sep ((a :: b :: parts) ++ [p]))
    with (a +++ sep +++ join sep ((b :: parts) ++ [p])).
  rewrite IH by discriminate.
  change (join sep (a :: b :: parts)) with (a +++ sep +++ join sep (b :: parts)).
  now rewrite !sapp_assoc.
Qed.

End RouterExtras.

(** X6.  When the selected tool answers, its text reaches the model: the
    run appends one system message ("RAG Tool Result: ..." with the
    retrieved text, "Web Search Results: ..." with the formatted hits,
    or "ArXiv Search Results: ..." with the papers found), calls the
    model on the conversation with that message, and the conversation
    returned ends with that message and the reply. *)
Theorem tool_results_reach_the_model
    (env : Collaborators) (conv : list message) (q found : string)
    (hits : list search_hit) :
  last_human_message conv = Some q ->
  (_should_use_rag q = true ->
   retrieve_information env (Some q) = Returned found ->
   let tool_message := SystemMessage ("RAG Tool Result: " +++ found) in
   route_and_respond env conv =
   ([NodeStep "analyze_question"; NodeStep "use_rag";
     ToolCall Retrieval (Some q); NodeStep "generate_response";
     ModelCall (system_prompt :: conv ++ [tool_message])],
    match chat_model env (system_prompt :: conv ++ [tool_message]) with
    | Returned reply => Returned (conv ++ [tool_message; reply])
    | Raised e => Raised e
    end)) /\
  (tools_to_use q = ["web_search"] ->
   tavily_tool env (Some q) = Returned (SearchHits hits) ->
   let tool_message :=
     SystemMessage
       ("Web Search Results: " +++ join newline (map format_hit hits)) in
   route_and_respond env conv =
   ([NodeStep "analyze_question"; NodeStep "use_web_search";
     ToolCall WebSearch (Some q); NodeStep "generate_response";
     ModelCall (system_prompt :: conv ++ [tool_message])],
    match chat_model env (system_prompt :: conv ++ [tool_message]) with
    | Returned reply => Returned (conv ++ [tool_message; reply])
    | Raised e => Raised e
    end)) /\
  (tools_to_use q = ["arxiv"] ->
   arxiv_tool env (Some q) = Returned found ->
   let tool_message := SystemMessage ("ArXiv Search Results: " +++ found) in
   route_and_respond env conv =
   ([NodeStep "analyze_question"; NodeStep "use_arxiv";
     ToolCall AcademicSearch (Some q); NodeStep "generate_response";
     ModelCall (system_prompt :: conv ++ [tool_message])],
    match chat_model env (system_prompt :: conv ++ [tool_message]) with
    | Returned reply => Returned (conv ++ [tool_message; reply])
    | Raised e => Raised e
    end)).
Proof.
  intros Hlast.
  pose proof (analyze_question_of (initial_state conv) q Hlast) as Hdec.
  split; [|split].
  - intros Hrag Hfound tool_message.
    rewrite (tools_to_use_rag q Hrag) in Hdec.
    apply route_and_respond_via.
    rewrite tool_stage_rag by (unfold analyzed; now rewrite Hdec).
    rewrite (question_of_analyzed (initial_state conv) "rag" q Hlast Hdec).
    now rewrite Hfound.
  - intros Htools Hfound tool_message.
    rewrite Htools in Hdec.
    apply route_and_respond_via.
    rewrite tool_stage_web by (unfold analyzed; now rewrite Hdec).
    rewrite (question_of_analyzed (initial_state conv) "web_search" q
               Hlast Hdec).
    now rewrite Hfound.
  - intros Htools Hfound tool_message.
    apply route_and_respond_via.
    now apply route_and_respond_via_arxiv.
Qed.

Lemma tool_results_reach_the_model_witness :
  route_and_respond healthy_env [HumanMessage paper_question] =
  ([NodeStep "analyze_question"; NodeStep "use_arxiv";
    ToolCall AcademicSearch (Some paper_question);
    NodeStep "generate_response";
    ModelCall [system_prompt; HumanMessage paper_question;
               SystemMessage "ArXiv Search Results: Paper list"]],
   Returned [HumanMessage paper_question;
             SystemMessage "ArXiv Search Results: Paper list";
             sample_reply]).
Proof.
  apply (proj2 (proj2 (tool_results_reach_the_model healthy_env
                         [HumanMessage paper_question] paper_question
                         "Paper list" [] eq_refl)));
    reflexivity.
Defined.

(** X7.  A run depends on the conversation alone: [tool_choice] and
    [question] left in the incoming state change nothing; and the
    decision depends on the latest human message alone, whatever stands
    before it and whatever messages of other kinds follow it. *)
Theorem routing_depends_on_latest_question
    (env : Collaborators) (msgs : list message) :
  (forall tc q tc' q',
      invoke (build_graph env) (mkState msgs tc q)
      = invoke (build_graph env) (mkState msgs tc' q')) /\
  (forall older newer asked tc q,
      msgs = older ++ HumanMessage asked :: newer ->
      (forall m, In m newer -> is_human m = false) ->
      analyze_question (mkState msgs tc q)
      = analyze_question (initial_state [HumanMessage asked])).
Proof.
  split.
  - intros tc q tc' q'. rewrite !invoke_pipeline. unfold pipeline.
    rewrite !node_step_analyze.
    now rewrite (analyzed_ignores_fields msgs tc q tc' q').
  - intros older newer asked tc q -> Hnewer.
    rewrite (analyze_question_of
               (mkState (older ++ HumanMessage asked :: newer) tc q) asked
               (last_human_message_newest older newer asked Hnewer)).
    now rewrite (analyze_question_of (initial_state [HumanMessage asked])
                   asked eq_refl).
Qed.

Lemma routing_depends_on_latest_question_witness :
  analyze_question
    (mkState [HumanMessage loans_question; AIMessage "Several kinds.";
              HumanMessage hello_question; SystemMessage "note"]
             (Some (Some "rag")) (Some (Some loans_question)))
  = analyze_question (initial_state [HumanMessage hello_question]).
Proof.
  apply (proj2 (routing_depends_on_latest_question healthy_env _)
           [HumanMessage loans_question; AIMessage "Several kinds."]
           [SystemMessage "note"] hello_question).
  - reflexivity.
  - intros m [<- | []]. reflexivity.
Defined.

(** X8.  The choice of tools does not depend on the case of the letters
    of the question: two questions with the same lower-cased text get
    the same choice, and so do a question and its lower-cased text. *)
Theorem classification_ignores_case (q : string) :
  tools_to_use (lower q) = tools_to_use q /\
  (forall q', lower q' = lower q -> tools_to_use q' = tools_to_use q).
Proof.
  assert (H : forall a b, lower a = lower b -> tools_to_use a = tools_to_use b).
  { intros a b Hab.
    unfold tools_to_use, _should_use_rag, _should_use_web_search,
      _should_use_arxiv.
    now rewrite Hab. }
  split; [apply H, lower_idempotent | intros q'; apply H].
Qed.

Lemma classification_ignores_case_witness :
  tools_to_use "WHAT DOES TUITION COST?" = tools_to_use "what does Tuition cost?".
Proof.
  apply (proj2 (classification_ignores_case "what does Tuition cost?")).
  reflexivity.
Defined.

(** X9.  The text of the web-search message has one line of the form
    "- title: content" for each hit, joined by line breaks: an empty
    list of hits gives the empty text, and one more hit adds one more
    line; a hit without title or content shows "No title" or
    "No content". *)
Theorem web_results_one_line_per_hit
    (hits : list search_hit) (hit : search_hit) :
  format_results (SearchHits []) = Returned "" /\
  (exists lines,
      format_results (SearchHits hits) = Returned lines /\
      format_results (SearchHits (hits ++ [hit])) =
        Returned (match hits with
                  | [] => format_hit hit
                  | _ :: _ => lines +++ newline +++ format_hit hit
                  end)) /\
  format_hit (mkHit None None) = "- No title: No content" /\
  (forall title text,
      format_hit (mkHit (Some title) (Some text))
      = "- " +++ title +++ ": " +++ text).
Proof.
  split; [reflexivity|]. split; [|split; reflexivity].
  exists (join newline (map format_hit hits)).
  split; [reflexivity|].
  destruct hits as [|h hits]; [reflexivity|].
  cbn [format_results]. rewrite map_app. cbn [map].
  now rewrite join_snoc by discriminate.
Qed.

(** * [main.py], [app/models.py] *)

Lemma result_of_route (env : Collaborators) (conv : list message) :
  result (route_and_respond env conv) =
  match result (invoke (build_graph env) (initial_state conv)) with
  | Returned final => Returned (messages final)
  | Raised e => Raised e
  end.
Proof.
  unfold route_and_respond, result.
  destruct (invoke (build_graph env) (initial_state conv)) as [t [final | e]];
    reflexivity.
Qed.

(** X10.  [main] asks its fixed question, which goes through the
    retrieval tool; whenever the model replies it prints the question
    with the content of that reply, never the raw response, and an
    exception of the model leaves [main]. *)
Theorem main_prints_the_reply (env : Collaborators) :
  let tool_message :=
    SystemMessage
      (rag_text (retrieve_information env (Some AppMain.question))) in
  AppMain.main env =
  match chat_model env
          [system_prompt; HumanMessage AppMain.question; tool_message] with
  | Returned reply =>
      Returned (AppMain.QuestionAndAnswer AppMain.question (content reply))
  | Raised e => Raised e
  end.
Proof.
  intros tool_message.
  assert (Hvia :
    route_and_respond env [HumanMessage AppMain.question] =
    ([NodeStep "analyze_question"; NodeStep "use_rag";
      ToolCall Retrieval (Some AppMain.question);
      NodeStep "generate_response";
      ModelCall (system_prompt :: [HumanMessage AppMain.question]
                   ++ [tool_message])],
     match chat_model env (system_prompt :: [HumanMessage AppMain.question]
                             ++ [tool_message]) with
     | Returned reply =>
         Returned ([HumanMessage AppMain.question] ++ [tool_message; reply])
     | Raised e => Raised e
     end)).
  { assert (Hdec : analyze_question
                     (initial_state [HumanMessage AppMain.question])
                   = decision "rag" AppMain.question)
      by (vm_compute; reflexivity).
    apply route_and_respond_via.
    rewrite tool_stage_rag by (unfold analyzed; now rewrite Hdec).
    now rewrite (question_of_analyzed
                   (initial_state [HumanMessage AppMain.question]) "rag"
                   AppMain.question eq_refl Hdec). }
  apply (f_equal result) in Hvia. rewrite result_of_route in Hvia.
  unfold result at 2 in Hvia. cbn [snd app] in Hvia.
  unfold AppMain.main.
  destruct (result (invoke (build_graph env)
                      (initial_state [HumanMessage AppMain.question])))
    as [final | e];
    destruct (chat_model env
                [system_prompt; HumanMessage AppMain.question; tool_message])
    as [reply | e']; try discriminate Hvia.
  - injection Hvia as Hm. cbn [obind]. rewrite Hm. reflexivity.
  - injection Hvia as ->. reflexivity.
Qed.

(** X11.  [get_chat_model] never builds a client with an empty model
    name: without a name, or with the empty name, the model is
    "openai/gpt-oss-20b", and any other name is used as given; the
    temperature is handed on, the retries are two, and there is no
    token or time limit. *)
Theorem get_chat_model_name
    (F : Type) (model_name : option string) (temperature : F) :
  let chat := Models.get_chat_model model_name temperature in
  Models.model chat <> "" /\
  (model_name = None \/ model_name = Some "" ->
   Models.model chat = "openai/gpt-oss-20b") /\
  (forall name, model_name = Some name -> name <> "" ->
                Models.model chat = name) /\
  Models.temperature chat = temperature /\
  Models.max_retries chat = 2 /\
  Models.max_tokens chat = None /\
  Models.timeout chat = None.
Proof.
  cbn. unfold py_or.
  split; [|split; [|split; [|repeat split]]].
  - destruct model_name as [name|]; cbn; [|discriminate].
    destruct (String.eqb name "") eqn:E; cbn; [discriminate|].
    now apply String.eqb_neq.
  - intros [-> | ->]; reflexivity.
  - intros name -> Hname. cbn.
    apply String.eqb_neq in Hname. now rewrite Hname.
Qed.

Lemma get_chat_model_name_witness :
  Models.model (Models.get_chat_model (Some "") 0) = "openai/gpt-oss-20b".
Proof.
  apply (proj1 (proj2 (get_chat_model_name nat (Some "") 0))).
  now right.
Defined.

(** * The MCP server and client *)

(** X12.  [bible_search] asks for exactly one address, the query
    appended to "https://bible-api.com/", and its answer depends on
    nothing else.  A status other than 200 gives "Error fetching verse."
    without the body being decoded; with status 200 the answer is the
    ["text"] entry of the body, or "Verse not found." when there is
    none; an exception of the request or of the decoding is not
    caught. *)
Theorem bible_search_outcomes
    (get : string -> outcome BibleApi.response) (query : string) :
  (forall get',
      get' (BibleApi.url_of query) = get (BibleApi.url_of query) ->
      BibleApi.bible_search get' query = BibleApi.bible_search get query) /\
  (forall e,
      get (BibleApi.url_of query) = Raised e ->
      BibleApi.bible_search get query = Raised e) /\
  (forall code body,
      get (BibleApi.url_of query) = Returned (BibleApi.mkResponse code body) ->
      code <> 200 ->
      BibleApi.bible_search get query = Returned "Error fetching verse.") /\
  (forall body,
      get (BibleApi.url_of query) = Returned (BibleApi.mkResponse 200 body) ->
      BibleApi.bible_search get query =
      match body with
      | Returned data =>
          Returned (match lookup "text" data with
                    | Some verse => verse
                    | None => "Verse not found."
                    end)
      | Raised e => Raised e
      end).
Proof.
  unfold BibleApi.bible_search. repeat split.
  - intros get' ->. reflexivity.
  - intros e ->. reflexivity.
  - intros code body -> Hcode. cbn.
    apply Nat.eqb_neq in Hcode. now rewrite Hcode.
  - intros body ->. cbn. destruct body; reflexivity.
Qed.

Lemma bible_search_outcomes_witness :
  BibleApi.bible_search
    (fun url =>
       if String.eqb url "https://bible-api.com/John 3:16"
       then Returned (BibleApi.mkResponse 200
                        (Returned [("reference", "John 3:16");
                                   ("text", "For God so loved the world")]))
       else Returned (BibleApi.mkResponse 404 (Raised timeout_error)))
    "John 3:16"
  = Returned "For God so loved the world".
Proof.
  apply (proj2 (proj2 (proj2 (bible_search_outcomes _ "John 3:16")))
           (Returned [("reference", "John 3:16");
                      ("text", "For God so loved the world")])).
  reflexivity.
Defined.

Section Counting.

Lemma count_char_app (c : ascii) (a b : string) :
  McpServer.count_char c (a +++ b)
  = McpServer.count_char c a + McpServer.count_char c b.
Proof.
  induction a as [|x a IH]; simpl; [reflexivity | rewrite IH; lia].
Qed.

Lemma count_char_le_length (c : ascii) (s : string) :
  McpServer.count_char c s <= String.length s.
Proof.
  induction s as [|x s IH]; simpl; [lia|].
  destruct (Ascii.eqb x c); lia.
Qed.

Lemma count_char_zero_iff (c : ascii) (s : string) :
  McpServer.count_char c s = 0 <-> contains s (String c "") = false.
Proof.
  induction s as [|x s IH]; simpl.
  - split; reflexivity.
  - rewrite (Ascii.eqb_sym c x).
    destruct (Ascii.eqb x c); simpl.
    + split; [lia | discriminate].
    + rewrite <- IH. reflexivity.
Qed.

Lemma lower_ascii_keeps_r (x : ascii) :
  Ascii.eqb x "r" = true -> Ascii.eqb (lower_ascii x) "r" = true.
Proof.
  intros H. apply Ascii.eqb_eq in H. subst x. reflexivity.
Qed.

End Counting.

(** X13.  [r_counter] counts the letters "r" of the query: the count of
    a concatenation is the sum of the counts, it is at most the length
    of the query, it is zero exactly when "r" does not occur in the
    query, and since a capital "R" is not counted it can only grow when
    the query is put in lower case. *)
Theorem r_counter_counts (a b : string) :
  McpServer.r_counter (a +++ b)
  = McpServer.r_counter a + McpServer.r_counter b /\
  McpServer.r_counter a <= String.length a /\
  (McpServer.r_counter a = 0 <-> contains a "r" = false) /\
  McpServer.r_counter a <= McpServer.r_counter (lower a).
Proof.
  unfold McpServer.r_counter.
  split; [apply count_char_app|].
  split; [apply count_char_le_length|].
  split; [apply count_char_zero_iff|].
  induction a as [|x a IH]; simpl; [lia|].
  destruct (Ascii.eqb x "r") eqn:E.
  - rewrite (lower_ascii_keeps_r x E). lia.
  - destruct (Ascii.eqb (lower_ascii x) "r"); lia.
Qed.

(** X14.  A wrapped tool never raises from [_arun]: an exception of the
    call becomes the text "Error calling tool <name>: <error>", a result
    without content becomes "No content returned", and otherwise the
    text of the first item is returned (an item without text again
    gives the error text); [_run] always raises
    [NotImplementedError]. *)
Theorem arun_never_raises
    (self : McpClient.MCPToolWrapper) (kwargs : list (string * string)) :
  (exists answer, McpClient._arun self kwargs = Returned answer) /\
  (forall e,
      McpClient.call_tool (McpClient._session self)
        (McpClient._tool_name self) kwargs = Raised e ->
      McpClient._arun self kwargs =
      Returned ("Error calling tool " +++ McpClient._tool_name self +++ ": "
                +++ exc_str e)) /\
  (forall content,
      McpClient.call_tool (McpClient._session self)
        (McpClient._tool_name self) kwargs
      = Returned (McpClient.mkResult content) ->
      content = None \/ content = Some [] ->
      McpClient._arun self kwargs = Returned "No content returned") /\
  (forall kind answer others,
      McpClient.call_tool (McpClient._session self)
        (McpClient._tool_name self) kwargs
      = Returned (McpClient.mkResult
                    (Some (McpClient.mkItem kind (Some answer) :: others))) ->
      McpClient._arun self kwargs = Returned answer) /\
  (exists e,
      McpClient._run self kwargs = Raised e /\
      exc_type e = "NotImplementedError").
Proof.
  unfold McpClient._arun.
  split; [|split; [|split; [|split]]].
  - destruct (McpClient.call_tool _ _ kwargs) as [[[[|[kind [t|]] items]|]]|e];
      eexists; reflexivity.
  - intros e ->. reflexivity.
  - intros content -> [-> | ->]; reflexivity.
  - intros kind answer others ->. reflexivity.
  - eexists. split; reflexivity.
Qed.

Lemma arun_never_raises_witness :
  McpClient._arun
    (McpClient.new_wrapper
       (McpClient.mkSession (fun _ _ => Raised timeout_error)
          (Returned []))
       "bible_search" "Fetch a verse")
    [("query", "John 3:16")]
  = Returned "Error calling tool bible_search: request timed out".
Proof.
  exact (proj1 (proj2 (arun_never_raises
                         (McpClient.new_wrapper
                            (McpClient.mkSession
                               (fun _ _ => Raised timeout_error)
                               (Returned []))
                            "bible_search" "Fetch a verse")
                         [("query", "John 3:16")]))
           timeout_error eq_refl).
Defined.

(** X15.  [create_mcp_tools] makes one wrapper for each tool the session
    lists, in the same order and under the same name; every wrapper has
    a description that is not empty (the tool's own, or "Tool: <name>"),
    and calling it calls the session's tool of that name.  An exception
    of [list_tools] is not caught. *)
Theorem create_mcp_tools_wraps_every_tool (session : McpClient.ClientSession) :
  (forall e,
      McpClient.list_tools session = Raised e ->
      McpClient.create_mcp_tools session = Raised e) /\
  (forall tools,
      McpClient.list_tools session = Returned tools ->
      exists wrappers,
        McpClient.create_mcp_tools session = Returned wrappers /\
        map McpClient.wrapper_name wrappers = map McpClient.name tools /\
        forall wrapper,
          In wrapper wrappers ->
          McpClient.wrapper_description wrapper <> "" /\
          McpClient._session wrapper = session /\
          McpClient._tool_name wrapper = McpClient.wrapper_name wrapper).
Proof.
  unfold McpClient.create_mcp_tools. split.
  - intros e ->. reflexivity.
  - intros tools ->. eexists. split; [reflexivity|]. split.
    + rewrite map_map. reflexivity.
    + intros wrapper Hin. apply in_map_iff in Hin as (tool & <- & _).
      cbn. split; [|split; reflexivity].
      unfold py_or.
      destruct (McpClient.description tool) as [d|]; cbn; [|discriminate].
      destruct (String.eqb d "") eqn:E; cbn; [discriminate|].
      now apply String.eqb_neq.
Qed.

Lemma create_mcp_tools_wraps_every_tool_witness :
  exists wrappers,
    McpClient.create_mcp_tools
      (McpClient.mkSession (fun _ _ => Raised timeout_error)
         (Returned [McpClient.mkTool "bible_search" None;
                    McpClient.mkTool "roll_dice" (Some "Roll the dice")]))
    = Returned wrappers /\
    map McpClient.wrapper_name wrappers = ["bible_search"; "roll_dice"] /\
    map McpClient.wrapper_description wrappers
    = ["Tool: bible_search"; "Roll the dice"].
Proof.
  destruct (proj2 (create_mcp_tools_wraps_every_tool
                     (McpClient.mkSession (fun _ _ => Raised timeout_error)
                        (Returned [McpClient.mkTool "bible_search" None;
                                   McpClient.mkTool "roll_dice"
                                     (Some "Roll the dice")])))
                  _ eq_refl) as (wrappers & Hc & _).
  exists wrappers. split; [exact Hc|].
  cbn in Hc. injection Hc as <-. split; reflexivity.
Defined.

(** * The A2A client *)

Section A2AFacts.

Import A2A.

Variable remote : Remote.

Ltac open_nodes :=
  unfold client_graph, then_node, discover_agents, analyze_user_input,
    delegate_to_remote_agent, format_response, cleanup, node_of, attempt,
    andthen, outside, read, assign, pure.

Ltac split_cases :=
  repeat match goal with
         | |- context [match ?x with _ => _ end] =>
             match x with
             | context [match _ with _ => _ end] => fail 1
             | _ => destruct x eqn:?
             end
         end.

(** Every run: the card is asked for first, the client is closed last,
    and between them there are at most a client and a message. *)
Lemma client_graph_run (s : ClientState) :
  exists between final,
    client_graph remote s
    = (GetAgentCard :: between ++ [CloseClient], Returned final) /\
    filter is_close between = [] /\
    length between <= 2 /\
    user_input final = user_input s /\
    messages final = messages s.
Proof.
  destruct s as [ms ds cur inp resp tid cid done err].
  open_nodes. cbn.
  split_cases; cbn; subst;
    first [ exists []; eexists; split; [reflexivity | cbn; auto]
          | eexists [CreateClient _]; eexists; split;
              [reflexivity | cbn; auto]
          | eexists [CreateClient _; SendMessage _ _ _ _]; eexists; split;
              [reflexivity | cbn; auto] ].
Qed.

(** X16.  A run of the client graph never raises, whatever the outside
    does: it asks for the agent card first, closes the HTTP client last
    and exactly once, and leaves the user's input and the message list
    of the state as they were. *)
Theorem client_graph_never_raises (s : ClientState) :
  exists between final,
    client_graph remote s
    = (GetAgentCard :: between ++ [CloseClient], Returned final) /\
    filter is_close between = [] /\
    length between <= 2 /\
    user_input final = user_input s /\
    messages final = messages s.
Proof. exact (client_graph_run s). Qed.

(** X17.  When the agent card cannot be fetched and the state names no
    agent, nothing is delegated: no client is built and no message is
    sent, and the response is
    "Error: No agents available for delegation". *)
Theorem no_agent_no_delegation (s : ClientState) (e : py_exception) :
  get_agent_card remote = Raised e ->
  current_agent s = None ->
  client_graph remote s =
  ([GetAgentCard; CloseClient],
   Returned
     (set_response "Error: No agents available for delegation"
        (set_error (Some "No agents available for delegation")
           (set_discovered_agents [] s)))).
Proof.
  destruct s as [ms ds cur inp resp tid cid done err].
  cbn. intros Hcard ->.
  open_nodes. cbn. rewrite Hcard. cbn.
  destruct (aclose remote); reflexivity.
Qed.

(** X18.  When the card is fetched, no error stands in the state and the
    remote agent answers with a content that is not empty, the message
    sent carries the user's input and the two identifiers just drawn,
    these are kept in the state, the task is marked complete, and the
    response is "Response from <agent name>:" followed by an empty line
    and the content. *)
Theorem successful_delegation
    (s : ClientState) (card : AgentCard) (content : string) :
  get_agent_card remote = Returned card ->
  truthy (error s) = false ->
  create_client remote card = Returned tt ->
  send_message remote card (user_input s) (uuid4 remote 0) (uuid4 remote 1)
  = Returned (Some (Some content)) ->
  content <> "" ->
  client_graph remote s =
  ([GetAgentCard; CreateClient card;
    SendMessage card (user_input s) (uuid4 remote 0) (uuid4 remote 1);
    CloseClient],
   Returned
     (set_response
        ("Response from " +++ card_name card +++ ":" +++ newline +++ newline
         +++ content)
        (set_is_complete true
           (set_task_id (Some (uuid4 remote 1))
              (set_context_id (Some (uuid4 remote 0))
                 (set_current_agent (Some card)
                    (set_discovered_agents [card] s))))))).
Proof.
  destruct s as [ms ds cur inp resp tid cid done err].
  cbn. intros Hcard Herr Hclient Hsend Hcontent.
  apply String.eqb_neq in Hcontent.
  open_nodes. cbn. rewrite Hcard. cbn. rewrite Herr. cbn.
  rewrite Hclient. cbn. rewrite Hsend. cbn. rewrite Herr. cbn.
  rewrite Hcontent. cbn.
  destruct (aclose remote); reflexivity.
Qed.

(** X19.  A delegation that fails is reported in the response, and the
    task is not marked complete.  If building the client raises, the
    response is "Error: Delegation failed: <error>" and no identifier is
    stored; if sending raises, the response is the same and the two
    identifiers drawn before stay in the state; if the answer is [None]
    or has no content, the response is
    "Error: No response received from remote agent". *)
Theorem failed_delegation_is_reported (s : ClientState) (card : AgentCard) :
  get_agent_card remote = Returned card ->
  truthy (error s) = false ->
  let found := set_current_agent (Some card) (set_discovered_agents [card] s) in
  let with_ids :=
    set_task_id (Some (uuid4 remote 1))
      (set_context_id (Some (uuid4 remote 0)) found) in
  let report (why : string) (st : ClientState) :=
    set_response ("Error: " +++ why) (set_error (Some why) st) in
  let sent :=
    SendMessage card (user_input s) (uuid4 remote 0) (uuid4 remote 1) in
  (forall e,
      create_client remote card = Raised e ->
      client_graph remote s =
      ([GetAgentCard; CreateClient card; CloseClient],
       Returned (report ("Delegation failed: " +++ exc_str e) found))) /\
  (forall e,
      create_client remote card = Returned tt ->
      send_message remote card (user_input s) (uuid4 remote 0)
        (uuid4 remote 1) = Raised e ->
      client_graph remote s =
      ([GetAgentCard; CreateClient card; sent; CloseClient],
       Returned (report ("Delegation failed: " +++ exc_str e) with_ids))) /\
  (forall answer,
      create_client remote card = Returned tt ->
      send_message remote card (user_input s) (uuid4 remote 0)
        (uuid4 remote 1) = Returned answer ->
      answer = None \/ answer = Some None ->
      client_graph remote s =
      ([GetAgentCard; CreateClient card; sent; CloseClient],
       Returned (report "No response received from remote agent" with_ids))).
Proof.
  destruct s as [ms ds cur inp resp tid cid done err].
  cbn. intros Hcard Herr. repeat split.
  - intros e Hclient.
    open_nodes. cbn. rewrite Hcard. cbn. rewrite Herr. cbn.
    rewrite Hclient. cbn.
    destruct (aclose remote); reflexivity.
  - intros e Hclient Hsend.
    open_nodes. cbn. rewrite Hcard. cbn. rewrite Herr. cbn.
    rewrite Hclient. cbn. rewrite Hsend. cbn.
    destruct (aclose remote); reflexivity.
  - intros answer Hclient Hsend Hanswer.
    open_nodes. cbn. rewrite Hcard. cbn. rewrite Herr. cbn.
    rewrite Hclient. cbn. rewrite Hsend. cbn.
    destruct Hanswer as [-> | ->]; cbn;
      destruct (aclose remote); reflexivity.
Qed.

(** X20.  After every run the response is in one of three shapes: when
    an error stands in the state it is "Error: " followed by that error;
    otherwise it is empty or starts with "Response from "; and a run
    marks the task complete only when it leaves no error. *)
Theorem final_response_shape (s : ClientState) :
  exists calls final,
    client_graph remote s = (calls, Returned final) /\
    (truthy (error final) = true ->
     response final = "Error: " +++ get_or (error final) "") /\
    (truthy (error final) = false ->
     response final = "" \/
     exists agent_name answer,
       response final =
       "Response from " +++ agent_name +++ ":" +++ newline +++ newline
       +++ answer) /\
    (is_complete s = false -> is_complete final = true ->
     truthy (error final) = false).
Proof.
  destruct s as [ms ds cur inp resp tid cid done err].
  destruct err as [[|c err]|];
    open_nodes; cbn; split_cases; cbn; subst;
    do 2 eexists; (split; [reflexivity|]); cbn;
    repeat split; intros; try discriminate; try congruence;
    first [ left; reflexivity
          | left; apply String.eqb_eq, negb_false_iff; assumption
          | right; exists "Unknown"; eexists; reflexivity
          | right; do 2 eexists; reflexivity ].
Qed.

End A2AFacts.

Lemma no_agent_no_delegation_witness :
  A2A.client_graph A2A.unreachable_remote (A2A.new_state "hi") =
  ([A2A.GetAgentCard; A2A.CloseClient],
   Returned
     (A2A.mkClientState [] [] None "hi"
        "Error: No agents available for delegation" None None false
        (Some "No agents available for delegation"))).
Proof.
  exact (no_agent_no_delegation A2A.unreachable_remote (A2A.new_state "hi")
           _ eq_refl eq_refl).
Defined.

Lemma successful_delegation_witness :
  A2A.client_graph A2A.healthy_remote (A2A.new_state "hi") =
  ([A2A.GetAgentCard; A2A.CreateClient A2A.sample_card;
    A2A.SendMessage A2A.sample_card "hi" "ctx-1" "task-1"; A2A.CloseClient],
   Returned
     (A2A.mkClientState [] [A2A.sample_card] (Some A2A.sample_card) "hi"
        ("Response from Helper:" +++ newline +++ newline +++ "You said hi")
        (Some "task-1") (Some "ctx-1") true None)).
Proof.
  apply (successful_delegation A2A.healthy_remote (A2A.new_state "hi")
           A2A.sample_card "You said hi");
    solve [reflexivity | discriminate].
Defined.

Lemma failed_delegation_is_reported_witness :
  A2A.client_graph A2A.broken_remote (A2A.new_state "hi") =
  ([A2A.GetAgentCard; A2A.CreateClient A2A.sample_card;
    A2A.SendMessage A2A.sample_card "hi" "ctx-1" "task-1"; A2A.CloseClient],
   Returned
     (A2A.mkClientState [] [A2A.sample_card] (Some A2A.sample_card) "hi"
        "Error: Delegation failed: timed out"
        (Some "task-1") (Some "ctx-1") false
        (Some "Delegation failed: timed out"))).
Proof.
  exact (proj1 (proj2 (failed_delegation_is_reported A2A.broken_remote
                         (A2A.new_state "hi") A2A.sample_card
                         eq_refl eq_refl))
           _ eq_refl eq_refl).
Defined.

Section A2ALoop.

Import A2A.

Variable remote : nat -> Remote.

Lemma one_close_per_run (r : Remote) (s : ClientState) :
  length (filter is_close (fst (client_graph r s))) = 1.
Proof.
  destruct (client_graph_run r s)
    as (between & final & -> & Hnone & _).
  cbn [fst filter is_close]. rewrite filter_app, Hnone. reflexivity.
Qed.

Lemma main_loop_step (n : nat) (line : string) (rest : list string) :
  is_quit (strip line) = false ->
  main_loop remote n (line :: rest) =
  if typed line then
    (Processing ::
       match snd (client_graph (remote n) (new_state (strip line))) with
       | Returned result =>
           if negb (String.eqb (response result) "")
           then AgentSays (response result)
           else NoResponse
       | Raised e => GraphError e
       end :: fst (main_loop remote (S n) rest),
     fst (client_graph (remote n) (new_state (strip line)))
       ++ snd (main_loop remote (S n) rest))
  else main_loop remote n rest.
Proof.
  intros Hquit. cbn [main_loop]. rewrite Hquit. unfold typed.
  destruct (String.eqb (strip line) ""); cbn [negb]; [reflexivity|].
  destruct (client_graph (remote n) (new_state (strip line))) as [calls r].
  destruct (main_loop remote (S n) rest) as [later later_calls].
  reflexivity.
Qed.

(** What the loop does with lines none of which is a quit command. *)
Lemma main_loop_prefix (before : list string) :
  (forall l, In l before -> is_quit (strip l) = false) ->
  forall n,
  exists out calls,
    length (filter is_processing out) = length (filter typed before) /\
    length (filter is_close calls) = length (filter typed before) /\
    length out = 2 * length (filter typed before) /\
    forall rest,
      main_loop remote n (before ++ rest) =
      (out ++ fst (main_loop remote (n + length (filter typed before)) rest),
       calls ++ snd (main_loop remote (n + length (filter typed before)) rest)).
Proof.
  induction before as [|line before IH]; intros Hquit n.
  - exists [], []. repeat split. intros rest. cbn [app filter length].
    rewrite Nat.add_0_r. now destruct (main_loop remote n rest).
  - assert (Hline : is_quit (strip line) = false) by (apply Hquit; now left).
    assert (Hrest : forall l, In l before -> is_quit (strip l) = false)
      by (intros l Hl; apply Hquit; now right).
    cbn [filter]. destruct (typed line) eqn:Htyped.
    + destruct (IH Hrest (S n)) as (out & calls & Hp & Hc & Hlen & Hrun).
      set (shown :=
             match snd (client_graph (remote n) (new_state (strip line))) with
             | Returned result =>
                 if negb (String.eqb (response result) "")
                 then AgentSays (response result)
                 else NoResponse
             | Raised e => GraphError e
             end).
      exists (Processing :: shown :: out),
             (fst (client_graph (remote n) (new_state (strip line))) ++ calls).
      split; [|split; [|split]].
      * assert (Hshown : is_processing shown = false).
        { unfold shown.
          destruct (snd (client_graph (remote n) (new_state (strip line))))
            as [result | e]; [|reflexivity].
          now destruct (negb (String.eqb (response result) "")). }
        cbn [filter is_processing length]. rewrite Hshown.
        cbn [length]. now rewrite Hp.
      * rewrite filter_app, length_app, one_close_per_run, Hc. reflexivity.
      * cbn [length]. rewrite Hlen. lia.
      * intros rest. cbn [app]. rewrite (main_loop_step n line _ Hline), Htyped.
        rewrite Hrun. cbn [fst snd length].
        rewrite <- Nat.add_succ_comm, <- app_assoc. reflexivity.
    + destruct (IH Hrest n) as (out & calls & Hp & Hc & Hlen & Hrun).
      exists out, calls. repeat split; try assumption.
      intros rest. cbn [app]. rewrite (main_loop_step n line _ Hline), Htyped.
      apply Hrun.
Qed.

(** X21.  The loop of [main] handles the lines typed before the first
    quit command and nothing after it: each line that is not blank
    starts exactly one run of the graph, which closes the HTTP client
    once, and prints two lines; blank lines do nothing; the quit
    command ends the loop with the goodbye line, whatever follows it,
    and input that ends without one ends with the report of
    [EOFError]. *)
Theorem main_loop_runs_until_quit (n : nat) (before : list string) :
  (forall l, In l before -> is_quit (strip l) = false) ->
  exists out calls,
    length (filter is_processing out) = length (filter typed before) /\
    length (filter is_close calls) = length (filter typed before) /\
    length out = 2 * length (filter typed before) /\
    (forall line after,
        is_quit (strip line) = true ->
        main_loop remote n (before ++ line :: after)
        = (out ++ [Goodbye], calls)) /\
    main_loop remote n before =
    (out ++ [UnexpectedError (mkExc "EOFError" "EOF when reading a line")],
     calls).
Proof.
  intros Hquit.
  destruct (main_loop_prefix before Hquit n)
    as (out & calls & Hp & Hc & Hlen & Hrun).
  exists out, calls. repeat split; try assumption.
  - intros line after Hline. rewrite Hrun.
    cbn [main_loop]. rewrite Hline. cbn [fst snd]. now rewrite app_nil_r.
  - rewrite <- (app_nil_r before) at 1. rewrite Hrun.
    cbn [main_loop fst snd]. now rewrite app_nil_r.
Qed.

End A2ALoop.

Lemma main_loop_runs_until_quit_witness :
  exists out calls,
    length (filter A2A.is_processing out) = 1 /\
    length (filter A2A.is_close calls) = 1 /\
    length out = 2 /\
    (forall line after,
        A2A.is_quit (A2A.strip line) = true ->
        A2A.main_loop (fun _ => A2A.healthy_remote) 0
          (["  hello "; "   "] ++ line :: after)
        = (out ++ [A2A.Goodbye], calls)) /\
    A2A.main_loop (fun _ => A2A.healthy_remote) 0 ["  hello "; "   "] =
    (out ++ [A2A.UnexpectedError (mkExc "EOFError" "EOF when reading a line")],
     calls).
Proof.
  apply (main_loop_runs_until_quit (fun _ => A2A.healthy_remote) 0
           ["  hello "; "   "]).
  intros l [<- | [<- | []]]; reflexivity.
Defined.
